(** * astrodask.fields: the field container, its lookup rules and its merge

    A shallow embedding of [src/astrodask/fields.py].  Python objects live in
    a store indexed by locations, so that two names for one child container
    see each other's updates; Python dictionaries are insertion-ordered
    association lists; raising an exception is an outcome of a computation. *)

From Stdlib Require Import ZArith String Ascii List Bool Lia DecimalString DecimalNat.
From stdpp Require Import base option list strings gmap.

Local Open Scope string_scope.
Local Open Scope list_scope.

(** ** Python dictionaries with string keys *)

Module PyDict.
Section dict.
Context {V : Type}.

Fixpoint getitem (k : string) (d : list (string * V)) : option V :=
  match d with
  | [] => None
  | (k', v) :: d' => if String.eqb k k' then Some v else getitem k d'
  end.

(** [k in d] *)
Definition contains (k : string) (d : list (string * V)) : bool :=
  match getitem k d with Some _ => true | None => false end.

(** [d[k] = v]: an existing key keeps its position, a new one goes last. *)
Fixpoint setitem (k : string) (v : V) (d : list (string * V)) : list (string * V) :=
  match d with
  | [] => [(k, v)]
  | (k', v') :: d' =>
      if String.eqb k k' then (k, v) :: d' else (k', v') :: setitem k v d'
  end.

Definition remove (k : string) (d : list (string * V)) : list (string * V) :=
  List.filter (fun kv => negb (String.eqb k (fst kv))) d.

(** [del d[k]]: [None] stands for the KeyError of a missing key. *)
Definition delitem (k : string) (d : list (string * V)) : option (list (string * V)) :=
  if contains k d then Some (remove k d) else None.

(** [d.update(other)] *)
Definition update (d other : list (string * V)) : list (string * V) :=
  fold_left (fun acc kv => setitem (fst kv) (snd kv) acc) other d.

Definition keys (d : list (string * V)) : list string := map fst d.
Definition values (d : list (string * V)) : list V := map snd d.
End dict.
End PyDict.

Abbreviation dict V := (list (string * V)).

(** ** Values, exceptions, recipes *)

(** Locations of container objects in the store, and identities of
    Python callables. *)
Abbreviation Loc := nat.
Abbreviation Func := nat.

Inductive PyVal :=
| PNone
| PInt (z : Z)
| PStr (s : string)
| PArray (shape : list nat) (data : list Z)
| PContainer (l : Loc).

Inductive ExnClass :=
| KeyError | ValueError | TypeError | StopIteration | IndexError
| AttributeError
| UserError (cls : string) (subclass_of_KeyError : bool).

Record Exn := mkExn { exn_class : ExnClass; exn_msg : string }.

(** What an [except KeyError] clause catches. *)
Definition isinstance_KeyError (e : Exn) : bool :=
  match exn_class e with
  | KeyError => true
  | UserError _ b => b
  | _ => false
  end.

Inductive Outcome (A : Type) :=
| Ok (a : A)
| Raise (e : Exn).
Arguments Ok {A} a.
Arguments Raise {A} e.

Inductive FieldType := INTERNAL | IO | DERIVED.

Record FieldRecipe := mkFieldRecipe {
  type : FieldType;
  rname : string;
  description : string;
  units : option string;
  func : option Func;
  arr : option PyVal
}.

Definition FieldRecipe__init__ (name : string) (func : option Func) (arr : option PyVal)
    (description : string) (units : option string) (ftype : FieldType)
  : Outcome FieldRecipe :=
  match func, arr with
  | None, None => Raise (mkExn ValueError "Need to specify either func or arr.")
  | _, _ => Ok (mkFieldRecipe ftype name description units func arr)
  end.

Definition DerivedFieldRecipe (name : string) (func : Func) (description : string)
    (units : option string) : Outcome FieldRecipe :=
  FieldRecipe__init__ name (Some func) None description units DERIVED.

(** ** The container object and the store *)

Record FieldContainer := mkFieldContainer {
  aliases : dict string;
  name : PyVal;
  fields : dict PyVal;
  fieldrecipes : dict FieldRecipe;
  fieldrecipes_kwargs : dict PyVal;
  containers : dict Loc;
  internals : list string
}.

Definition set_aliases (a : dict string) (c : FieldContainer) : FieldContainer :=
  mkFieldContainer a (name c) (fields c) (fieldrecipes c) (fieldrecipes_kwargs c)
    (containers c) (internals c).
Definition set_fields (f : dict PyVal) (c : FieldContainer) : FieldContainer :=
  mkFieldContainer (aliases c) (name c) f (fieldrecipes c) (fieldrecipes_kwargs c)
    (containers c) (internals c).
Definition set_fieldrecipes (r : dict FieldRecipe) (c : FieldContainer) : FieldContainer :=
  mkFieldContainer (aliases c) (name c) (fields c) r (fieldrecipes_kwargs c)
    (containers c) (internals c).
Definition set_containers (cs : dict Loc) (c : FieldContainer) : FieldContainer :=
  mkFieldContainer (aliases c) (name c) (fields c) (fieldrecipes c)
    (fieldrecipes_kwargs c) cs (internals c).

(** The object a bare [FieldContainer(fieldrecipes_kwargs=kw)] builds. *)
Definition fresh_container (kw : dict PyVal) : FieldContainer :=
  mkFieldContainer [] PNone [] [] kw [] ["uid"].

(** The store of container objects, and the log of generator calls: one
    entry (container, key) for each [func(self, **kwargs)] that was run. *)
Record World := mkWorld {
  heap : list FieldContainer;
  calls : list (Loc * string)
}.

Definition M (A : Type) : Type := World -> Outcome A * World.

Definition ret {A} (a : A) : M A := fun w => (Ok a, w).
Definition raise {A} (e : Exn) : M A := fun w => (Raise e, w).
Definition bind {A B} (m : M A) (k : A -> M B) : M B :=
  fun w => match m w with
           | (Ok a, w') => k a w'
           | (Raise e, w') => (Raise e, w')
           end.

Declare Scope py_scope.
Delimit Scope py_scope with py.
Notation "x <- m ;; k" := (bind m (fun x => k))
  (at level 100, m at next level, right associativity) : py_scope.
Notation "m ;;; k" := (bind m (fun _ => k))
  (at level 100, right associativity) : py_scope.
Local Open Scope py_scope.

Definition deref (w : World) (l : Loc) : FieldContainer :=
  default (fresh_container []) (heap w !! l).

Definition read (l : Loc) : M FieldContainer := fun w => (Ok (deref w l), w).

Definition modify (l : Loc) (f : FieldContainer -> FieldContainer) : M unit :=
  fun w => (Ok tt, mkWorld (alter f l (heap w)) (calls w)).

Definition alloc (c : FieldContainer) : M Loc :=
  fun w => (Ok (length (heap w)), mkWorld (heap w ++ [c]) (calls w)).

Definition log_call (l : Loc) (key : string) : M unit :=
  fun w => (Ok tt, mkWorld (heap w) (calls w ++ [(l, key)])).

Definition allocated (w : World) (l : Loc) : Prop := l < length (heap w).

(** ** Callables

    A recipe holds a Python callable.  Of a callable the container uses its
    signature ([inspect.getfullargspec], and [get_kwargs] of helpers_misc,
    the defaults of its keyword parameters) and its call. *)

Record Callable := mkCallable {
  __name__ : string;
  args : list string;
  varkw : option string;
  kwdefaults : dict PyVal;
  call : Loc -> dict PyVal -> M PyVal
}.

(** ** Construction *)

(** [subscript d k]: the read [d[k]] of a plain dictionary. *)
Definition subscript {V} (d : dict V) (k : string) : M V :=
  match PyDict.getitem k d with
  | Some v => ret v
  | None => raise (mkExn KeyError k)
  end.

Fixpoint for_each {A} (l : list A) (body : A -> M unit) : M unit :=
  match l with
  | [] => ret tt
  | a :: l' => body a ;;; for_each l' body
  end.

(** The constructor of FieldContainer: [init_fields] is what the positional
    and the remaining keyword arguments hand to [fields.update], [init_name]
    the keyword [name] popped from the keyword arguments. *)
Definition FieldContainer__init__ (init_fields : dict PyVal) (init_name : PyVal)
    (init_fieldrecipes_kwargs : option (dict PyVal))
    (init_containers : option (list string))
    (init_aliases : option (dict string)) : M Loc :=
  let als := default [] init_aliases in
  let fkws := default [] init_fieldrecipes_kwargs in
  self <- alloc (mkFieldContainer als init_name (PyDict.update [] init_fields)
                   [] fkws [] ["uid"]) ;;
  for_each (default [] init_containers) (fun k =>
      child <- alloc (fresh_container fkws) ;;
      modify self (fun c => set_containers (PyDict.setitem k child (containers c)) c)) ;;;
  ret self.

(** The keywords [new_container] forwards to the constructor. *)
Record InitKwargs := mkInitKwargs {
  kw_fields : dict PyVal;
  kw_containers : option (list string);
  kw_aliases : option (dict string)
}.

Definition no_kwargs : InitKwargs := mkInitKwargs [] None None.

Definition new_container (self : Loc) (key : string) (kwargs : InitKwargs) : M unit :=
  s <- read self ;;
  let fkws := fieldrecipes_kwargs s in
  if PyDict.contains "name" (kw_fields kwargs) || PyDict.contains "fieldrecipes_kwargs" (kw_fields kwargs)
  then raise (mkExn TypeError "got multiple values for keyword argument")
  else
    child <- FieldContainer__init__ (kw_fields kwargs) (PStr key) (Some fkws)
               (kw_containers kwargs) (kw_aliases kwargs) ;;
    modify self (fun c => set_containers (PyDict.setitem key child (containers c)) c).

(** ** Merge *)

Definition merge_step (self other : Loc) (overwrite : bool) (k : string) : M unit :=
  s <- read self ;;
  (if PyDict.contains k (containers s) then ret tt
   else
     child <- FieldContainer__init__ [] PNone (Some (fieldrecipes_kwargs s)) None None ;;
     modify self (fun c => set_containers (PyDict.setitem k child (containers c)) c)) ;;;
  s <- read self ;;
  o <- read other ;;
  sk <- subscript (containers s) k ;;
  ok <- subscript (containers o) k ;;
  let c1 := if overwrite then sk else ok in
  let c2 := if overwrite then ok else sk in
  src <- read c2 ;;
  modify c1 (fun c => set_fields (PyDict.update (fields c) (fields src)) c) ;;;
  src <- read c2 ;;
  modify c1 (fun c => set_fieldrecipes (PyDict.update (fieldrecipes c) (fieldrecipes src)) c).

Definition merge (self : Loc) (collection : PyVal) (overwrite : bool) : M unit :=
  match collection with
  | PContainer other =>
      o <- read other ;;
      for_each (PyDict.keys (containers o)) (merge_step self other overwrite)
  | _ => raise (mkExn TypeError "Can only merge FieldContainers.")
  end.

(** ** Counting and the uniform length *)

Definition fieldcount (self : Loc) : M nat :=
  s <- read self ;; ret (length (fields s)).

(** [v.shape[0]] *)
Definition shape0 (v : PyVal) : Outcome nat :=
  match v with
  | PArray (n :: _) _ => Ok n
  | PArray [] _ => Raise (mkExn IndexError "tuple index out of range")
  | _ => Raise (mkExn AttributeError "object has no attribute 'shape'")
  end.

(** [all(first.shape[0] == v.shape[0] for v in vs)], left to right, stopping
    at the first difference. *)
Fixpoint all_same_length (first : PyVal) (vs : list PyVal) : Outcome bool :=
  match vs with
  | [] => Ok true
  | v :: vs' =>
      match shape0 first with
      | Raise e => Raise e
      | Ok a =>
          match shape0 v with
          | Raise e => Raise e
          | Ok b => if Nat.eqb a b then all_same_length first vs' else Ok false
          end
      end
  end.

Definition fieldlength_of (c : FieldContainer) : Outcome (option nat) :=
  match PyDict.values (fields c) with
  | [] => Raise (mkExn StopIteration EmptyString)
  | first :: _ =>
      match all_same_length first (PyDict.values (fields c)) with
      | Raise e => Raise e
      | Ok true =>
          match shape0 first with
          | Ok n => Ok (Some n)
          | Raise e => Raise e
          end
      | Ok false => Ok None
      end
  end.

Definition fieldlength (self : Loc) : M (option nat) :=
  fun w => (fieldlength_of (deref w self), w).

(** ** Writing *)

Definition __setitem__ (self : Loc) (key : string) (value : PyVal) : M unit :=
  match value with
  | PContainer l =>
      modify self (fun c => set_containers (PyDict.setitem key l (containers c)) c)
  | _ =>
      modify self (fun c => set_fields (PyDict.setitem key value (fields c)) c)
  end.

Definition add_alias (self : Loc) (alias name : string) : M unit :=
  modify self (fun c => set_aliases (PyDict.setitem alias name (aliases c)) c).

Definition __delitem__ (self : Loc) (key : string) : M unit :=
  s <- read self ;;
  (if PyDict.contains key (fieldrecipes s)
   then modify self (fun c => set_fieldrecipes (PyDict.remove key (fieldrecipes c)) c)
   else ret tt) ;;;
  s <- read self ;;
  match PyDict.delitem key (fields s) with
  | Some f' => modify self (set_fields f')
  | None => raise (mkExn KeyError key)
  end.

(** ** Registration of recipes, lookup and derivation *)

Definition lift {A} (o : Outcome A) : M A := fun w => (o, w).

Fixpoint map_m {A B} (f : A -> M B) (l : list A) : M (list B) :=
  match l with
  | [] => ret []
  | a :: l' => b <- f a ;; bs <- map_m f l' ;; ret (b :: bs)
  end.

(** The [containernames] argument of [register_field]. *)
Inductive ContainerNames :=
| CList (names : list string)
| CNone
| CStr (s : string)
| COther.

(** The [containers] the decorator closes over: a list built at
    registration, or the live view [self.containers.values()]. *)
Inductive Targets :=
| TList (ls : list Loc)
| TValues (self : Loc).

Definition register_field (self : Loc) (containernames : ContainerNames) : M Targets :=
  s <- read self ;;
  match containernames with
  | CList names =>
      ls <- map_m (subscript (containers s)) names ;; ret (TList ls)
  | CStr c =>
      if String.eqb c "all" then ret (TValues self)
      else l <- subscript (containers s) c ;; ret (TList [l])
  | CNone => ret (TList [self])
  | COther => raise (mkExn ValueError "Unknown type.")
  end.

Definition key_error_unknown (key : string) : Exn :=
  mkExn KeyError ("Unknown field '" +:+ key +:+ "'").

Definition key_error_derived (key : string) : Exn :=
  mkExn KeyError ("Field '" +:+ key +:+ "' is derived (allow_derived=False)").

Section Lookup.
(** The callables behind the function values held by recipes. *)
Variable funcs : Func -> Callable.

Definition decorator (targets : Targets) (name : option string) (description : string)
    (units : option string) (func : Func) : M Func :=
  let name := default (__name__ (funcs func)) name in
  ls <- match targets with
        | TList ls => ret ls
        | TValues self => s <- read self ;; ret (PyDict.values (containers s))
        end ;;
  for_each ls (fun container =>
      r <- lift (DerivedFieldRecipe name func description units) ;;
      modify container (fun c => set_fieldrecipes (PyDict.setitem name r (fieldrecipes c)) c)) ;;;
  ret func.

(** The keyword arguments a generator is called with. *)
Definition recipe_kwargs (f : Callable) (dkwargs : dict PyVal) : dict PyVal :=
  let kwargs :=
    List.filter (fun kv => match PyDict.getitem (fst kv) (kwdefaults f) with
                           | Some PNone => true
                           | _ => false
                           end) dkwargs in
  match varkw f with
  | Some _ =>
      PyDict.update kwargs
        (List.filter (fun kv => negb (existsb (String.eqb (fst kv)) (args f))) dkwargs)
  | None => kwargs
  end.

(** One substitution through [aliases]. *)
Definition resolve_alias (c : FieldContainer) (key : string) : string :=
  match PyDict.getitem key (aliases c) with
  | Some key' => key'
  | None => key
  end.

(** The recipe branch of [_getitem]: run the generator, store the result. *)
Definition derive (self : Loc) (key : string) (r : FieldRecipe) (update_dict : bool)
  : M PyVal :=
  match func r with
  | None => raise (mkExn TypeError "unsupported callable")
  | Some f =>
      s <- read self ;;
      let kwargs := recipe_kwargs (funcs f) (fieldrecipes_kwargs s) in
      log_call self key ;;;
      field <- call (funcs f) self kwargs ;;
      (if update_dict
       then modify self (fun c => set_fields (PyDict.setitem key field (fields c)) c)
       else ret tt) ;;;
      ret field
  end.

Definition _getitem (self : Loc) (key : string) (force_derived update_dict : bool)
  : M PyVal :=
  s <- read self ;;
  let key := resolve_alias s key in
  match PyDict.getitem key (containers s) with
  | Some child => ret (PContainer child)
  | None =>
      match PyDict.getitem key (fields s), force_derived with
      | Some v, false => ret v
      | _, _ =>
          match PyDict.getitem key (fieldrecipes s) with
          | Some r => derive self key r update_dict
          | None => raise (key_error_unknown key)
          end
      end
  end.

Definition __getitem__ (self : Loc) (key : string) : M PyVal :=
  _getitem self key false true.

Definition get (self : Loc) (key : string) (value : PyVal)
    (allow_derived force_derived : bool) : M PyVal :=
  fun w =>
    if PyDict.contains key (fieldrecipes (deref w self)) && negb allow_derived
    then (Raise (key_error_derived key), w)
    else
      match _getitem self key force_derived false w with
      | (Raise e, w') =>
          if isinstance_KeyError e then (Ok value, w') else (Raise e, w')
      | r => r
      end.
End Lookup.

(** ** A worked scenario

    An empty container, a field ["x"], and recipes registered on it: one
    that doubles ["x"], one that reads a field nobody defined, one that
    fails with an error of its own. *)

Definition py_double (v : PyVal) : Outcome PyVal :=
  match v with
  | PArray sh d => Ok (PArray sh (map (Z.mul 2) d))
  | PInt z => Ok (PInt (2 * z))
  | _ => Raise (mkExn TypeError "unsupported operand type(s) for *")
  end.

Definition not_callable : Callable :=
  mkCallable EmptyString [] None [] (fun _ _ => raise (mkExn TypeError "object is not callable")).

Definition demo_funcs (f : Func) : Callable :=
  match f with
  | 0 => mkCallable "<lambda>" ["self"] (Some "kw") []
           (fun self _ => x <- __getitem__ (fun _ => not_callable) self "x" ;; lift (py_double x))
  | 1 => mkCallable "needs_y" ["self"] None []
           (fun self _ => __getitem__ (fun _ => not_callable) self "y")
  | 2 => mkCallable "broken" ["self"] None []
           (fun _ _ => raise (mkExn ValueError "bad recipe"))
  | _ => not_callable
  end.

Definition empty_world : World := mkWorld [] [].

Definition demo_setup : M Loc :=
  c <- FieldContainer__init__ [] PNone None None None ;;
  __setitem__ c "x" (PArray [3] [1; 2; 3]%Z) ;;;
  t <- register_field c CNone ;;
  decorator demo_funcs t (Some "double") EmptyString None 0 ;;;
  decorator demo_funcs t None EmptyString None 1 ;;;
  decorator demo_funcs t None EmptyString None 2 ;;;
  ret c.

Definition demo_world : World := snd (demo_setup empty_world).

(** Two trees to merge: [X] with a child ["gas"] holding [a = 1], [Y] with a
    child ["gas"] holding [a = 2] and [b = 7], and a field [a] of its own. *)
Definition merge_setup : M (Loc * Loc) :=
  x <- FieldContainer__init__ [("a", PInt 1)] PNone None (Some ["gas"]) None ;;
  y <- FieldContainer__init__ [("a", PInt 2)] PNone None (Some ["gas"]) None ;;
  xs <- read x ;;
  ys <- read y ;;
  xg <- subscript (containers xs) "gas" ;;
  yg <- subscript (containers ys) "gas" ;;
  __setitem__ xg "a" (PInt 1) ;;;
  __setitem__ yg "a" (PInt 2) ;;;
  __setitem__ yg "b" (PInt 7) ;;;
  ret (x, y).

Definition merge_world : World := snd (merge_setup empty_world).

(** Containers for the length query: three fields of three rows each, and
    the same with one more field of two rows. *)
Definition uniform_setup : M Loc :=
  c <- FieldContainer__init__ [] PNone None None None ;;
  __setitem__ c "pos" (PArray [3; 2] [1; 2; 3; 4; 5; 6]%Z) ;;;
  __setitem__ c "mass" (PArray [3] [7; 8; 9]%Z) ;;;
  __setitem__ c "uid" (PArray [3] [0; 1; 2]%Z) ;;;
  ret c.

Definition uniform_world : World := snd (uniform_setup empty_world).


Definition blank_world : World :=
  snd (FieldContainer__init__ [] PNone None None None empty_world).

(** [self.fields[key] = field], the write that caches a derived field. *)
Definition store_field (self : Loc) (key : string) (field : PyVal) (w : World) : World :=
  snd (modify self (fun c => set_fields (PyDict.setitem key field (fields c)) c) w).

(** The world a generator is started in: the call is logged. *)
Definition logged (self : Loc) (key : string) (w : World) : World :=
  snd (log_call self key w).

(** The scenario after ["double"] was read once by subscription: the key
    has a recipe and a stored field. *)
Definition derived_world : World :=
  snd (__getitem__ demo_funcs 0 "double" demo_world).

(** [w'] extends [w]: the objects of [w] are as they were, nothing was called. *)
Definition frame (w w' : World) : Prop :=
  length (heap w) <= length (heap w') /\
  calls w' = calls w /\
  forall l, allocated w l -> deref w' l = deref w l.

(** ** The two buckets of a container *)







(** ** Two trees that share no object *)

Definition wf_dict {V} (d : dict V) : Prop := NoDup (PyDict.keys d).

Record separated (w : World) (self other : Loc) : Prop := mkSeparated {
  sep_self : allocated w self;
  sep_other : allocated w other;
  sep_children : forall l,
      l ∈ PyDict.values (containers (deref w self))
          ++ PyDict.values (containers (deref w other)) -> allocated w l;
  sep_keys_self : wf_dict (containers (deref w self));
  sep_keys_other : wf_dict (containers (deref w other));
  sep_distinct :
    NoDup (self :: other :: PyDict.values (containers (deref w self))
             ++ PyDict.values (containers (deref w other)))
}.

(** The child of [self] that a merge step reads or writes for the name [k]:
    the one it has, or else the empty one the step creates. *)
Definition child_or_fresh (w : World) (self : Loc) (k : string) : FieldContainer :=
  match PyDict.getitem k (containers (deref w self)) with
  | Some l => deref w l
  | None => fresh_container (fieldrecipes_kwargs (deref w self))
  end.

(** The two halves of a merge step: make sure [self] has a child named
    [k], then copy the fields and the recipes of the object [c2] into the
    object [c1]. *)
Definition ensure_child (self : Loc) (k : string) (w : World) : World :=
  match PyDict.getitem k (containers (deref w self)) with
  | Some _ => w
  | None =>
      snd (modify self
             (fun c => set_containers (PyDict.setitem k (length (heap w)) (containers c)) c)
             (snd (alloc (fresh_container (fieldrecipes_kwargs (deref w self))) w)))
  end.

Definition copy_into (c1 c2 : Loc) (w : World) : World :=
  let w1 := snd (modify c1 (fun c =>
                   set_fields (PyDict.update (fields c) (fields (deref w c2))) c) w) in
  snd (modify c1 (fun c =>
         set_fieldrecipes (PyDict.update (fieldrecipes c) (fieldrecipes (deref w1 c2))) c) w1).

(** The object [tgt] after [tgt.fields.update(src.fields)] and
    [tgt.fieldrecipes.update(src.fieldrecipes)]. *)
Definition merged (tgt src : FieldContainer) : FieldContainer :=
  set_fieldrecipes (PyDict.update (fieldrecipes tgt) (fieldrecipes src))
    (set_fields (PyDict.update (fields tgt) (fields src)) tgt).

(** What a merge did for the child name [k]: [self] has a child [sk] of
    that name, the one it had or a new object; with [overwrite] the child
    of [self] took the entries of the child [ok] of [other], without it the
    child of [other] took the entries of the child of [self]; the object
    that was read is as it was. *)
Definition child_merged (overwrite : bool) (w w' : World) (self other : Loc)
    (k : string) : Prop :=
  exists sk ok,
    PyDict.getitem k (containers (deref w other)) = Some ok /\
    PyDict.getitem k (containers (deref w' self)) = Some sk /\
    (PyDict.getitem k (containers (deref w self)) = Some sk \/
     PyDict.getitem k (containers (deref w self)) = None /\ ~ allocated w sk) /\
    if overwrite
    then deref w' sk = merged (child_or_fresh w self k) (deref w ok)
         /\ deref w' ok = deref w ok
    else deref w' ok = merged (deref w ok) (child_or_fresh w self k)
         /\ deref w' sk = child_or_fresh w self k.

(** The object a merge writes for the name [k], among those of [w]. *)
Definition merge_target (overwrite : bool) (w : World) (self other : Loc)
    (k : string) : option Loc :=
  if overwrite then PyDict.getitem k (containers (deref w self))
  else PyDict.getitem k (containers (deref w other)).

(** The state after the merge loop ran over the names [ks]. *)
Record merge_post (overwrite : bool) (self other : Loc) (ks : list string)
    (w w' : World) : Prop := mkMergePost {
  mp_sep : separated w' self other;
  mp_len : length (heap w) <= length (heap w');
  mp_calls : calls w' = calls w;
  mp_other : containers (deref w' other) = containers (deref w other);
  mp_self : deref w' self = set_containers (containers (deref w' self)) (deref w self);
  mp_kept : forall k l,
      PyDict.getitem k (containers (deref w self)) = Some l ->
      PyDict.getitem k (containers (deref w' self)) = Some l;
  mp_new : forall k l,
      PyDict.getitem k (containers (deref w' self)) = Some l ->
      PyDict.getitem k (containers (deref w self)) = Some l \/
      (PyDict.getitem k (containers (deref w self)) = None /\ k ∈ ks /\ ~ allocated w l);
  mp_child : forall k, k ∈ ks -> child_merged overwrite w w' self other k;
  mp_frame : forall l,
      allocated w l -> l <> self ->
      (forall k, k ∈ ks -> merge_target overwrite w self other k <> Some l) ->
      deref w' l = deref w l
}.

(** ** Enumeration *)

(** [l.remove(x)]: the first occurrence goes. *)
Fixpoint list_remove (x : string) (l : list string) : list string :=
  match l with
  | [] => []
  | y :: l' => if String.eqb x y then l' else y :: list_remove x l'
  end.

(** The loop of [keys] over [self.internals]. *)
Definition drop_internals (internals fieldkeys : list string) : list string :=
  fold_left (fun fk ikey =>
               if existsb (String.eqb ikey) fk then list_remove ikey fk else fk)
    internals fieldkeys.

(** [list(set(a) | set(b))]: the elements of the union, in an order of the
    set's own. *)
Definition list_set_union (a b : list string) : list string :=
  elements (list_to_set a ∪ list_to_set b : gset string).

Definition keys_of (c : FieldContainer) (withgroups withrecipes withinternal : bool)
  : list string :=
  let fieldkeys := PyDict.keys (fields c) in
  let fieldkeys :=
    if withinternal then fieldkeys else drop_internals (internals c) fieldkeys in
  let fieldkeys :=
    if withrecipes then list_set_union fieldkeys (PyDict.keys (fieldrecipes c))
    else fieldkeys in
  if withgroups then list_set_union fieldkeys (PyDict.keys (containers c))
  else fieldkeys.

Definition keys (self : Loc) (withgroups withrecipes withinternal : bool)
  : M (list string) :=
  s <- read self ;; ret (keys_of s withgroups withrecipes withinternal).



(** Every dictionary of fields and of recipes in the store has each key
    once, as Python dictionaries do. *)
Definition heap_wf (w : World) : Prop :=
  forall l, wf_dict (fields (deref w l)) /\ wf_dict (fieldrecipes (deref w l)).

(** ** The dataframe projection

    Names are taken to be ASCII, where the numeric characters of
    [str.isnumeric] are the ten digits.  The table [get_dataframe] returns
    is represented by the columns it hands to the dataframe engine, in
    their order.  The scan for a trailing index is a [while] loop: it runs
    on fuel, and [None] is a run that did not finish. *)

Definition is_digit (c : ascii) : bool :=
  Nat.leb 48 (nat_of_ascii c) && Nat.leb (nat_of_ascii c) 57.

Fixpoint all_digits (s : string) : bool :=
  match s with
  | EmptyString => true
  | String c s' => is_digit c && all_digits s'
  end.

(** [s.isnumeric()] *)
Definition isnumeric (s : string) : bool :=
  match s with
  | EmptyString => false
  | String _ _ => all_digits s
  end.

Fixpoint drop_string (n : nat) (s : string) : string :=
  match n, s with
  | 0, _ => s
  | S n', String _ s' => drop_string n' s'
  | S _, EmptyString => EmptyString
  end.

(** [s[i:]] *)
Definition slice_from (s : string) (i : Z) : string :=
  let n := Z.of_nat (String.length s) in
  let start := if (i <? 0)%Z then Z.max 0 (n + i) else Z.min i n in
  drop_string (Z.to_nat start) s.

(** [while k[i:].isnumeric(): i += -1], and the [i] it ends with. *)
Fixpoint scan_suffix (fuel : nat) (k : string) (i : Z) : option Z :=
  match fuel with
  | 0 => None
  | S fuel' =>
      if isnumeric (slice_from k i) then scan_suffix fuel' k (i - 1) else Some i
  end.

(** [int(s)] *)
Definition py_int (s : string) : Outcome nat :=
  match NilZero.uint_of_string s with
  | Some d => Ok (Nat.of_uint d)
  | None => Raise (mkExn ValueError "invalid literal for int() with base 10")
  end.

(** [str(n)] *)
Definition py_str (n : nat) : string := NilZero.string_of_uint (Nat.to_uint n).

Fixpoint before_first (sep s : string) : string :=
  if String.prefix sep s then EmptyString
  else match s with
       | EmptyString => EmptyString
       | String c s' => String c (before_first sep s')
       end.

(** [s.split(sep)[0]] *)
Definition split_first (sep s : string) : Outcome string :=
  match sep with
  | EmptyString => Raise (mkExn ValueError "empty separator")
  | String _ _ => Ok (before_first sep s)
  end.

Definition obind {A B} (o : Outcome A) (k : A -> Outcome B) : Outcome B :=
  match o with
  | Ok a => k a
  | Raise e => Raise e
  end.

(** [v.ndim], [v.shape[1]] and [v[:, i]] *)
Definition ndim (v : PyVal) : Outcome nat :=
  match v with
  | PArray sh _ => Ok (length sh)
  | _ => Raise (mkExn AttributeError "object has no attribute 'ndim'")
  end.

Definition shape1 (v : PyVal) : Outcome nat :=
  match v with
  | PArray (_ :: m :: _) _ => Ok m
  | PArray _ _ => Raise (mkExn IndexError "tuple index out of range")
  | _ => Raise (mkExn AttributeError "object has no attribute 'shape'")
  end.

Definition column (v : PyVal) (i : nat) : PyVal :=
  match v with
  | PArray (n :: m :: _) data =>
      PArray [n] (map (fun r => nth (r * m + i) data 0%Z) (seq 0 n))
  | _ => v
  end.

Definition AssertionError : ExnClass := UserError "AssertionError" false.

(** The name to look up and the column asked for: the key itself when
    [keys()] lists it, else the key split at its trailing digits. *)
Definition resolve_column (fuel : nat) (self : Loc) (k : string)
  : World -> option (Outcome (string * option nat) * World) :=
  fun w =>
    match keys self true true false w with
    | (Raise e, w') => Some (Raise e, w')
    | (Ok ks, w') =>
        if existsb (String.eqb k) ks then Some (Ok (k, None), w')
        else
          match scan_suffix fuel k (-1) with
          | None => None
          | Some i =>
              let i := (i + 1)%Z in
              if (i =? 0)%Z
              then Some (Raise (mkExn ValueError ("Field '" +:+ k +:+ "' not found")), w')
              else Some (obind (py_int (slice_from k i)) (fun idim =>
                         obind (split_first (slice_from k i) k) (fun k' =>
                         Ok (k', Some idim))), w')
          end
    end.

(** The body of the loop after [v = self[k]]: the checks, and the columns
    added to [dss]. *)
Definition add_columns (k : string) (idim : option nat) (v : PyVal) (dss : dict PyVal)
  : Outcome (dict PyVal) :=
  obind (ndim v) (fun nd =>
  if Nat.ltb 2 nd then Raise (mkExn AssertionError EmptyString)
  else
    obind (match idim with
           | None => Ok tt
           | Some j =>
               if Nat.leb nd 1
               then Raise (mkExn ValueError ("No second dimensional index for " +:+ k))
               else obind (shape1 v) (fun m =>
                      if Nat.leb m j
                      then Raise (mkExn ValueError
                                    ("Second dimensional index " +:+ py_str j
                                     +:+ " not defined for " +:+ k))
                      else Ok tt)
           end) (fun _ =>
    if Nat.ltb 1 nd
    then obind (shape1 v) (fun m =>
           Ok (fold_left (fun d i =>
                            match idim with
                            | None => PyDict.setitem (k +:+ py_str i) (column v i) d
                            | Some j =>
                                if Nat.eqb j i
                                then PyDict.setitem (k +:+ py_str i) (column v i) d
                                else d
                            end) (seq 0 m) dss))
    else Ok (PyDict.setitem k v dss))).

Fixpoint dataframe_loop (fuel : nat) (funcs : Func -> Callable) (self : Loc)
    (fields : list string) (dss : dict PyVal) (w : World)
  : option (Outcome (dict PyVal) * World) :=
  match fields with
  | [] => Some (Ok dss, w)
  | k :: rest =>
      match resolve_column fuel self k w with
      | None => None
      | Some (Raise e, w1) => Some (Raise e, w1)
      | Some (Ok (k', idim), w1) =>
          match __getitem__ funcs self k' w1 with
          | (Raise e, w2) => Some (Raise e, w2)
          | (Ok v, w2) =>
              match add_columns k' idim v dss with
              | Raise e => Some (Raise e, w2)
              | Ok dss' => dataframe_loop fuel funcs self rest dss' w2
              end
          end
      end
  end.

Definition get_dataframe (fuel : nat) (funcs : Func -> Callable) (self : Loc)
    (fields : option (list string)) : World -> option (Outcome (dict PyVal) * World) :=
  fun w =>
    match fields with
    | Some fs => dataframe_loop fuel funcs self fs [] w
    | None =>
        match keys self true true false w with
        | (Ok ks, w') => dataframe_loop fuel funcs self ks [] w'
        | (Raise e, w') => Some (Raise e, w')
        end
    end.


(** A container with a two-dimensional field of three columns, a
    one-dimensional field and an internal field. *)
Definition table_setup : M Loc :=
  c <- FieldContainer__init__ [] PNone None None None ;;
  __setitem__ c "vel" (PArray [2; 3] [1; 2; 3; 4; 5; 6]%Z) ;;;
  __setitem__ c "mass" (PArray [2] [7; 8]%Z) ;;;
  __setitem__ c "uid" (PArray [2] [0; 1]%Z) ;;;
  ret c.

Definition table_world : World := snd (table_setup empty_world).


(** ** config.py: the recursive merge of configurations

    A configuration is a dictionary whose values are scalars or
    dictionaries again.  The merge updates [dict_a] in place and returns
    it: the result is the final [dict_a], with the exception when one was
    raised.  The two arguments are taken to share no dictionary object. *)

Inductive Scalar :=
| SNone
| SBool (b : bool)
| SInt (z : Z)
| SStr (s : string).

#[warnings="-register-all"]
Inductive Conf :=
| CLeaf (v : Scalar)
| CDict (d : list (string * Conf)).

(** [x == y] on scalars: a boolean equals the integer 0 or 1. *)
Definition scalar_eq (x y : Scalar) : bool :=
  match x, y with
  | SNone, SNone => true
  | SBool a, SBool b => Bool.eqb a b
  | SInt a, SInt b => Z.eqb a b
  | SStr a, SStr b => String.eqb a b
  | SBool a, SInt b | SInt b, SBool a => Z.eqb b (if a then 1 else 0)
  | _, _ => false
  end.

(** ["."join(l)] *)
Fixpoint join_dots (l : list string) : string :=
  match l with
  | [] => EmptyString
  | [x] => x
  | x :: l' => x +:+ "." +:+ join_dots l'
  end.

Definition conflict_at (path : list string) (key : string) : Exn :=
  mkExn (UserError "Exception" false) ("Conflict at " +:+ join_dots (path ++ [key])).

Fixpoint merge_conf (dict_a : dict Conf) (b : Conf) (path : list string) {struct b}
  : dict Conf * option Exn :=
  match b with
  | CLeaf _ => (dict_a, None)
  | CDict dict_b =>
      (fix loop (dict_a : dict Conf) (entries : list (string * Conf)) {struct entries}
         : dict Conf * option Exn :=
         match entries with
         | [] => (dict_a, None)
         | (key, vb) :: rest =>
             match PyDict.getitem key dict_a with
             | None => loop (PyDict.setitem key vb dict_a) rest
             | Some va =>
                 match va, vb with
                 | CDict a', CDict _ =>
                     match merge_conf a' vb (path ++ [key]) with
                     | (a'', None) => loop (PyDict.setitem key (CDict a'') dict_a) rest
                     | (a'', Some e) => (PyDict.setitem key (CDict a'') dict_a, Some e)
                     end
                 | CLeaf x, CLeaf y =>
                     if scalar_eq x y then loop dict_a rest
                     else (dict_a, Some (conflict_at path key))
                 | _, _ => (dict_a, Some (conflict_at path key))
                 end
             end
         end) dict_a dict_b
  end.

(** [merge_dicts_recursively(dict_a, dict_b, path)]; [path=None] is the
    empty path. *)
Definition merge_dicts_recursively (dict_a dict_b : dict Conf) (path : option (list string))
  : dict Conf * option Exn :=
  merge_conf dict_a (CDict dict_b) (default [] path).

Definition conf_a : dict Conf :=
  [("units", CDict [("length", CLeaf (SStr "kpc")); ("h", CLeaf (SInt 1))]);
   ("cache", CLeaf (SBool true))].

Definition conf_b : dict Conf :=
  [("units", CDict [("mass", CLeaf (SStr "Msun")); ("h", CLeaf (SBool true))]);
   ("nthreads", CLeaf (SInt 8))].

Definition conf_c : dict Conf :=
  [("units", CDict [("length", CLeaf (SStr "Mpc"))])].

(** [conf_get p c]: the value at the path of keys [p]. *)
Fixpoint conf_get (p : list string) (c : Conf) : option Conf :=
  match p with
  | [] => Some c
  | k :: p' =>
      match c with
      | CDict d =>
          match PyDict.getitem k d with
          | Some c' => conf_get p' c'
          | None => None
          end
      | CLeaf _ => None
      end
  end.

(** No dictionary, at any depth, lists a key twice. *)
Fixpoint conf_wf (c : Conf) : Prop :=
  match c with
  | CLeaf _ => True
  | CDict d =>
      NoDup (PyDict.keys d) /\
      (fix all (l : list (string * Conf)) : Prop :=
         match l with
         | [] => True
         | (_, v) :: l' => conf_wf v /\ all l'
         end) d
  end.

(** * Properties *)

Example demo_setup_ok : fst (demo_setup empty_world) = Ok 0.
Proof. reflexivity. Qed.

Example demo_getitem_double :
  fst (__getitem__ demo_funcs 0 "double" demo_world) = Ok (PArray [3] [2; 4; 6]%Z).
Proof. reflexivity. Qed.

(** Aliases are substituted once: with [A -> B] and [B -> x], reading [A]
    looks for a field named [B]. *)
Example alias_single_hop :
  fst ((add_alias 0 "A" "B" ;;; add_alias 0 "B" "x" ;;;
        __getitem__ demo_funcs 0 "A") demo_world)
  = Raise (key_error_unknown "B")
  /\ fst ((add_alias 0 "B" "x" ;;; __getitem__ demo_funcs 0 "B") demo_world)
     = Ok (PArray [3] [1; 2; 3]%Z).
Proof. split; reflexivity. Qed.

Example demo_recipe_keys :
  PyDict.keys (fieldrecipes (deref demo_world 0)) = ["double"; "needs_y"; "broken"].
Proof. reflexivity. Qed.

(** ** Dictionaries *)

Section dict_facts.
Context {V : Type}.
Implicit Types (d o : dict V) (k : string) (v : V).

Lemma getitem_setitem_eq k v d :
  PyDict.getitem k (PyDict.setitem k v d) = Some v.
Proof.
  induction d as [|[k' v'] d IH]; simpl.
  - now rewrite String.eqb_refl.
  - destruct (String.eqb k k') eqn:E; simpl; rewrite ?String.eqb_refl, ?E; auto.
Qed.

Lemma getitem_setitem_ne k k' v d :
  k <> k' -> PyDict.getitem k' (PyDict.setitem k v d) = PyDict.getitem k' d.
Proof.
  intros Hne. apply String.eqb_neq in Hne.
  induction d as [|[k1 v1] d IH]; simpl.
  - rewrite String.eqb_sym, Hne. reflexivity.
  - destruct (String.eqb k k1) eqn:E; simpl.
    + apply String.eqb_eq in E. subst k1.
      rewrite String.eqb_sym, Hne. reflexivity.
    + destruct (String.eqb k' k1); auto.
Qed.

Lemma contains_setitem_eq k v d :
  PyDict.contains k (PyDict.setitem k v d) = true.
Proof. unfold PyDict.contains. now rewrite getitem_setitem_eq. Qed.


Lemma getitem_remove_eq k d : PyDict.getitem k (PyDict.remove k d) = None.
Proof.
  induction d as [|[k' v'] d IH]; simpl; auto.
  destruct (String.eqb k k') eqn:E; simpl; rewrite ?E; auto.
Qed.

Lemma getitem_remove_ne k k' d :
  k <> k' -> PyDict.getitem k' (PyDict.remove k d) = PyDict.getitem k' d.
Proof.
  intros Hne. apply String.eqb_neq in Hne.
  induction d as [|[k1 v1] d IH]; simpl; auto.
  destruct (String.eqb k k1) eqn:E; simpl.
  - apply String.eqb_eq in E. subst k1.
    rewrite String.eqb_sym, Hne. exact IH.
  - destruct (String.eqb k' k1); auto.
Qed.

Lemma getitem_None_keys k d :
  PyDict.getitem k d = None <-> k ∉ PyDict.keys d.
Proof.
  induction d as [|[k' v'] d IH]; simpl.
  - split; auto. intros _ H. inversion H.
  - destruct (String.eqb k k') eqn:E.
    + apply String.eqb_eq in E. subst. split; [discriminate|].
      intros H. exfalso. apply H. constructor.
    + apply String.eqb_neq in E. rewrite IH. split.
      * intros H H'. inversion H'; subst; tauto.
      * intros H H'. apply H. now constructor.
Qed.

Lemma getitem_Some_values k v d :
  PyDict.getitem k d = Some v -> v ∈ PyDict.values d.
Proof.
  induction d as [|[k' v'] d IH]; simpl; [discriminate|].
  destruct (String.eqb k k').
  - intros [= ->]. constructor.
  - intros H. constructor. auto.
Qed.

Lemma getitem_Some_keys k v d :
  PyDict.getitem k d = Some v -> k ∈ PyDict.keys d.
Proof.
  intros H. destruct (decide (k ∈ PyDict.keys d)) as [|Hn]; auto.
  apply getitem_None_keys in Hn. congruence.
Qed.

Lemma keys_getitem k d :
  k ∈ PyDict.keys d -> exists v, PyDict.getitem k d = Some v.
Proof.
  intros H. destruct (PyDict.getitem k d) eqn:E; eauto.
  apply getitem_None_keys in E. tauto.
Qed.

Lemma setitem_absent k v d :
  PyDict.getitem k d = None -> PyDict.setitem k v d = d ++ [(k, v)].
Proof.
  induction d as [|[k' v'] d IH]; simpl; auto.
  destruct (String.eqb k k'); [discriminate|].
  intros H. now rewrite IH.
Qed.

Lemma keys_setitem_present k v d :
  PyDict.contains k d = true -> PyDict.keys (PyDict.setitem k v d) = PyDict.keys d.
Proof.
  unfold PyDict.contains.
  induction d as [|[k' v'] d IH]; simpl; [discriminate|].
  destruct (String.eqb k k') eqn:E; simpl.
  - apply String.eqb_eq in E. now subst.
  - intros H. now rewrite IH.
Qed.

Lemma wf_dict_setitem k v d : wf_dict d -> wf_dict (PyDict.setitem k v d).
Proof.
  unfold wf_dict. intros H.
  destruct (PyDict.getitem k d) eqn:E.
  - rewrite keys_setitem_present; auto. unfold PyDict.contains. now rewrite E.
  - rewrite setitem_absent by auto. unfold PyDict.keys. rewrite map_app. simpl.
    apply NoDup_app. repeat split; auto.
    + intros x Hx Hx'. apply list_elem_of_singleton in Hx'. subst.
      apply getitem_None_keys in E. tauto.
    + apply NoDup_singleton.
Qed.

Lemma update_nil d : PyDict.update d [] = d.
Proof. reflexivity. Qed.

Lemma update_cons d k v o :
  PyDict.update d ((k, v) :: o) = PyDict.update (PyDict.setitem k v d) o.
Proof. reflexivity. Qed.

(** After [d.update(o)] a key of [o] reads [o]'s value, any other key
    reads what [d] had. *)
Lemma getitem_update k d o :
  wf_dict o ->
  PyDict.getitem k (PyDict.update d o) =
    match PyDict.getitem k o with
    | Some v => Some v
    | None => PyDict.getitem k d
    end.
Proof.
  unfold wf_dict. revert d.
  induction o as [|[k1 v1] o IH]; intros d Hnd; simpl; auto.
  apply NoDup_cons in Hnd as [Hk1 Hnd].
  change (PyDict.update d ((k1, v1) :: o)) with (PyDict.update (PyDict.setitem k1 v1 d) o).
  rewrite IH by auto.
  destruct (String.eqb k k1) eqn:E.
  - apply String.eqb_eq in E. subst k1.
    apply getitem_None_keys in Hk1. simpl in Hk1. rewrite Hk1.
    apply getitem_setitem_eq.
  - apply String.eqb_neq in E.
    destruct (PyDict.getitem k o); auto.
    apply getitem_setitem_ne. congruence.
Qed.

Lemma wf_dict_update d o : wf_dict d -> wf_dict (PyDict.update d o).
Proof.
  revert d. induction o as [|[k v] o IH]; intros d H; auto.
  rewrite update_cons. apply IH. now apply wf_dict_setitem.
Qed.

Lemma contains_true k d :
  PyDict.contains k d = true <-> exists v, PyDict.getitem k d = Some v.
Proof.
  unfold PyDict.contains. destruct (PyDict.getitem k d); split; eauto.
  - discriminate.
  - intros [v [=]].
Qed.

Lemma contains_false k d :
  PyDict.contains k d = false <-> PyDict.getitem k d = None.
Proof.
  unfold PyDict.contains. destruct (PyDict.getitem k d); split; auto; discriminate.
Qed.
End dict_facts.

(** ** The store *)

Lemma deref_alter_eq w f l cs :
  allocated w l -> deref (mkWorld (alter f l (heap w)) cs) l = f (deref w l).
Proof.
  unfold allocated, deref. simpl. intros H.
  rewrite list_lookup_alter_eq.
  apply lookup_lt_is_Some_2 in H as [c Hc].
  now rewrite Hc.
Qed.

Lemma deref_alter_ne w f l l' cs :
  l <> l' -> deref (mkWorld (alter f l (heap w)) cs) l' = deref w l'.
Proof. unfold deref. simpl. intros H. now rewrite list_lookup_alter_ne. Qed.

Lemma deref_app_old w l more cs :
  allocated w l -> deref (mkWorld (heap w ++ more) cs) l = deref w l.
Proof. unfold allocated, deref. simpl. intros H. now rewrite lookup_app_l. Qed.

Lemma deref_app_new w c cs :
  deref (mkWorld (heap w ++ [c]) cs) (length (heap w)) = c.
Proof. unfold deref. simpl. now rewrite list_lookup_middle. Qed.

Lemma deref_calls h cs cs' l : deref (mkWorld h cs) l = deref (mkWorld h cs') l.
Proof. reflexivity. Qed.

Lemma modify_allocated l f w l' :
  allocated (snd (modify l f w)) l' <-> allocated w l'.
Proof. unfold allocated, modify. cbn [snd heap]. now rewrite length_alter. Qed.

Lemma deref_modify_eq l f w :
  allocated w l -> deref (snd (modify l f w)) l = f (deref w l).
Proof. intros H. unfold modify. cbn [snd]. now apply deref_alter_eq. Qed.

Lemma deref_modify_ne l l' f w :
  l <> l' -> deref (snd (modify l f w)) l' = deref w l'.
Proof. intros H. unfold modify. cbn [snd]. now apply deref_alter_ne. Qed.

(** ** The uniform length *)





(** C10: on a container without fields the length query raises
    StopIteration: there is no first field to take. *)
Theorem fieldlength_empty_raises (w : World) (self : Loc) :
  fields (deref w self) = [] ->
  fieldlength self w = (Raise (mkExn StopIteration EmptyString), w).
Proof. intros H. unfold fieldlength, fieldlength_of. now rewrite H. Qed.

Lemma fieldlength_empty_raises_witness :
  fieldlength 0 blank_world = (Raise (mkExn StopIteration EmptyString), blank_world).
Proof. apply (fieldlength_empty_raises blank_world 0). reflexivity. Defined.

(** ** Deletion *)

Lemma remove_absent {V} k (d : dict V) :
  PyDict.getitem k d = None -> PyDict.remove k d = d.
Proof.
  induction d as [|[k' v'] d IH]; simpl; auto.
  destruct (String.eqb k k') eqn:E; [discriminate|].
  simpl. intros H. now rewrite IH.
Qed.

(** What the first statement of [__delitem__] leaves: the recipe is gone,
    whether or not there was one. *)
Lemma delitem_run (w : World) (self : Loc) (key : string) :
  allocated w self ->
  exists w1,
    deref w1 self = set_fieldrecipes (PyDict.remove key (fieldrecipes (deref w self))) (deref w self)
    /\ allocated w1 self
    /\ __delitem__ self key w =
         match PyDict.delitem key (fields (deref w self)) with
         | Some f' => (Ok tt, mkWorld (alter (set_fields f') self (heap w1)) (calls w1))
         | None => (Raise (mkExn KeyError key), w1)
         end.
Proof.
  intros Ha. unfold __delitem__, bind, read.
  destruct (PyDict.contains key (fieldrecipes (deref w self))) eqn:E.
  - exists (mkWorld (alter (fun c => set_fieldrecipes
                                 (PyDict.remove key (fieldrecipes c)) c) self (heap w))
                   (calls w)).
    split; [|split].
    + now rewrite deref_alter_eq.
    + unfold allocated. simpl. rewrite length_alter. exact Ha.
    + unfold modify at 1. cbn beta iota.
      rewrite deref_alter_eq by auto. cbn [fields set_fieldrecipes].
      destruct (PyDict.delitem key (fields (deref w self))); reflexivity.
  - exists w. split; [|split]; auto.
    + apply contains_false in E. rewrite remove_absent by auto.
      now destruct (deref w self).
    + unfold ret. cbn beta iota.
      destruct (PyDict.delitem key (fields (deref w self))); reflexivity.
Qed.

(** C7, as the code has it: deletion removes the key from the recipes and
    from the fields; it raises KeyError exactly when the key is not in the
    fields, also for a key that only has a recipe, whose recipe is removed
    before the error. *)
Theorem delitem_semantics (w : World) (self : Loc) (key : string) :
  allocated w self ->
  let c := deref w self in
  let r := __delitem__ self key w in
  let c' := deref (snd r) self in
  PyDict.contains key (fieldrecipes c') = false /\
  (forall k, k <> key ->
     PyDict.getitem k (fieldrecipes c') = PyDict.getitem k (fieldrecipes c)) /\
  (PyDict.contains key (fields c) = true ->
     fst r = Ok tt /\
     PyDict.contains key (fields c') = false /\
     forall k, k <> key -> PyDict.getitem k (fields c') = PyDict.getitem k (fields c)) /\
  (PyDict.contains key (fields c) = false ->
     fst r = Raise (mkExn KeyError key) /\ fields c' = fields c).
Proof.
  intros Ha c r c'.
  destruct (delitem_run w self key Ha) as (w1 & Hc1 & Ha1 & Hrun).
  subst c r c'. rewrite Hrun. unfold PyDict.delitem.
  destruct (PyDict.contains key (fields (deref w self))) eqn:E; simpl.
  - rewrite deref_alter_eq by auto. rewrite Hc1. simpl.
    repeat split; try discriminate.
    + apply contains_false, getitem_remove_eq.
    + intros k Hk. apply getitem_remove_ne. congruence.
    + apply contains_false, getitem_remove_eq.
    + intros k Hk. apply getitem_remove_ne. congruence.
  - rewrite Hc1. simpl.
    repeat split; try discriminate.
    + apply contains_false, getitem_remove_eq.
    + intros k Hk. apply getitem_remove_ne. congruence.
Qed.

Lemma delitem_semantics_witness :
  fst (__delitem__ 0 "x" demo_world) = Ok tt /\
  PyDict.contains "x" (fields (deref (snd (__delitem__ 0 "x" demo_world)) 0)) = false.
Proof.
  assert (Ha : allocated demo_world 0) by (vm_compute; lia).
  destruct (delitem_semantics demo_world 0 "x" Ha) as (_ & _ & H & _).
  destruct (H eq_refl) as (H1 & H2 & _). split; assumption.
Defined.

(** C7 as stated fails: deleting a key that only has a recipe raises. *)
Lemma delitem_recipe_only_raises :
  PyDict.contains "double" (fieldrecipes (deref demo_world 0)) = true /\
  PyDict.contains "double" (fields (deref demo_world 0)) = false /\
  fst (__delitem__ 0 "double" demo_world) = Raise (mkExn KeyError "double").
Proof. repeat split. Qed.

(** ** Lookup *)

Section lookup_facts.
Variable funcs : Func -> Callable.

Lemma derive_run self key r f ud w :
  func r = Some f ->
  derive funcs self key r ud w =
    match call (funcs f) self
            (recipe_kwargs (funcs f) (fieldrecipes_kwargs (deref w self)))
            (logged self key w) with
    | (Ok field, w2) => (Ok field, if ud then store_field self key field w2 else w2)
    | (Raise e, w2) => (Raise e, w2)
    end.
Proof.
  intros Hf. unfold derive. rewrite Hf. unfold bind, read, log_call, logged.
  cbn beta iota. simpl snd.
  destruct (call (funcs f) self _ _) as [[field|e] w2]; auto.
  destruct ud; reflexivity.
Qed.

Lemma getitem_run self key fd ud w :
  let c := deref w self in
  let k := resolve_alias c key in
  _getitem funcs self key fd ud w =
    match PyDict.getitem k (containers c) with
    | Some child => (Ok (PContainer child), w)
    | None =>
        match PyDict.getitem k (fields c), fd with
        | Some v, false => (Ok v, w)
        | _, _ =>
            match PyDict.getitem k (fieldrecipes c) with
            | Some r => derive funcs self k r ud w
            | None => (Raise (key_error_unknown k), w)
            end
        end
    end.
Proof.
  intros c k. subst c k. unfold _getitem, bind, read. cbn beta iota.
  destruct (PyDict.getitem _ (containers _)); auto.
  destruct (PyDict.getitem _ (fields _)); auto.
  - destruct fd; auto.
    destruct (PyDict.getitem _ (fieldrecipes _)); auto.
  - destruct (PyDict.getitem _ (fieldrecipes _)); auto.
Qed.

Lemma getitem_container_branch self key fd ud w child :
  PyDict.getitem (resolve_alias (deref w self) key) (containers (deref w self))
  = Some child ->
  _getitem funcs self key fd ud w = (Ok (PContainer child), w).
Proof. intros H. rewrite getitem_run. cbv zeta. now rewrite H. Qed.

Lemma getitem_field_branch self key ud w v :
  PyDict.getitem (resolve_alias (deref w self) key) (containers (deref w self)) = None ->
  PyDict.getitem (resolve_alias (deref w self) key) (fields (deref w self)) = Some v ->
  _getitem funcs self key false ud w = (Ok v, w).
Proof. intros Hc Hf. rewrite getitem_run. cbv zeta. now rewrite Hc, Hf. Qed.

Lemma getitem_recipe_branch self key fd ud w rc f :
  let c := deref w self in
  let k := resolve_alias c key in
  PyDict.getitem k (containers c) = None ->
  PyDict.getitem k (fields c) = None \/ fd = true ->
  PyDict.getitem k (fieldrecipes c) = Some rc -> func rc = Some f ->
  _getitem funcs self key fd ud w =
    match call (funcs f) self (recipe_kwargs (funcs f) (fieldrecipes_kwargs c))
            (logged self k w) with
    | (Ok field, w2) => (Ok field, if ud then store_field self k field w2 else w2)
    | (Raise e, w2) => (Raise e, w2)
    end.
Proof.
  intros c k Hc Hf Hr Hfunc. rewrite getitem_run. fold c k. rewrite Hc, Hr.
  rewrite (derive_run self k rc f ud w Hfunc). fold c.
  destruct Hf as [-> | ->]; auto.
  destruct (PyDict.getitem k (fields c)); auto.
Qed.

Lemma getitem_unknown_branch self key fd ud w :
  let c := deref w self in
  let k := resolve_alias c key in
  PyDict.getitem k (containers c) = None ->
  PyDict.getitem k (fields c) = None \/ fd = true ->
  PyDict.getitem k (fieldrecipes c) = None ->
  _getitem funcs self key fd ud w = (Raise (key_error_unknown k), w).
Proof.
  intros c k Hc Hf Hr. rewrite getitem_run. fold c k. rewrite Hc, Hr.
  destruct Hf as [-> | ->]; auto.
  destruct (PyDict.getitem k (fields c)); auto.
Qed.


(** C5, as the code has it: an exception raised by the generator leaves
    [_getitem] unchanged; [get] lets it through unless it is a KeyError,
    which its handler turns into the default value. *)
Theorem generator_failure_propagation (w w2 : World) (self : Loc) (key : string)
    (rc : FieldRecipe) (f : Func) (e : Exn) (fd ud ad : bool) (value : PyVal) :
  let c := deref w self in
  let k := resolve_alias c key in
  PyDict.getitem k (containers c) = None ->
  PyDict.getitem k (fields c) = None \/ fd = true ->
  PyDict.getitem k (fieldrecipes c) = Some rc -> func rc = Some f ->
  call (funcs f) self (recipe_kwargs (funcs f) (fieldrecipes_kwargs c))
    (logged self k w) = (Raise e, w2) ->
  _getitem funcs self key fd ud w = (Raise e, w2) /\
  (PyDict.contains key (fieldrecipes c) = false \/ ad = true ->
   get funcs self key value ad fd w =
     if isinstance_KeyError e then (Ok value, w2) else (Raise e, w2)).
Proof.
  intros c k Hc Hf Hr Hfunc Hcall.
  assert (Hg : forall ud', _getitem funcs self key fd ud' w = (Raise e, w2)).
  { intros ud'.
    rewrite (getitem_recipe_branch self key fd ud' w rc f Hc Hf Hr Hfunc).
    fold c k. now rewrite Hcall. }
  split; [apply Hg|].
  intros Had. unfold get. fold c.
  replace (PyDict.contains key (fieldrecipes c) && negb ad) with false.
  - rewrite Hg. reflexivity.
  - destruct Had as [-> | ->]; auto using andb_false_r.
Qed.

(** C6, as the code has it: with [allow_derived=False], [get] raises a
    KeyError exactly when the key it was given has a recipe, stored field
    or not; a key without a recipe is looked up as usual, and a stored
    field is returned. *)
Theorem get_allow_derived_false (w : World) (self : Loc) (key : string)
    (value : PyVal) (fd : bool) :
  let c := deref w self in
  let r := get funcs self key value false fd w in
  ((exists e, fst r = Raise e /\ isinstance_KeyError e = true) <->
   PyDict.contains key (fieldrecipes c) = true)
  /\
  (PyDict.contains key (fieldrecipes c) = true ->
   r = (Raise (key_error_derived key), w))
  /\
  (forall v,
      PyDict.contains key (fieldrecipes c) = false ->
      PyDict.getitem (resolve_alias c key) (containers c) = None ->
      PyDict.getitem (resolve_alias c key) (fields c) = Some v -> fd = false ->
      r = (Ok v, w)).
Proof.
  intros c r. subst r. unfold get. fold c.
  destruct (PyDict.contains key (fieldrecipes c)) eqn:E; simpl.
  - split; [|split]; auto; try discriminate.
    split; auto. intros _. eexists. split; reflexivity.
  - split; [|split]; try discriminate.
    + split; [|discriminate]. intros (e & He & Hk).
      destruct (_getitem funcs self key fd false w) as [[v|e'] w']; [discriminate|].
      destruct (isinstance_KeyError e') eqn:E'; simpl in He; congruence.
    + intros v _ Hc Hv ->.
      now rewrite (getitem_field_branch self key false w v Hc Hv).
Qed.
End lookup_facts.

Example demo_setup_derived :
  PyDict.getitem "double" (fields (deref derived_world 0)) = Some (PArray [3] [2; 4; 6]%Z)
  /\ PyDict.contains "double" (fieldrecipes (deref derived_world 0)) = true
  /\ calls derived_world = [(0, "double")].
Proof. repeat split. Qed.


Lemma generator_failure_propagation_witness :
  _getitem demo_funcs 0 "broken" false true demo_world
  = (Raise (mkExn ValueError "bad recipe"), logged 0 "broken" demo_world)
  /\ get demo_funcs 0 "broken" PNone true false demo_world
     = (Raise (mkExn ValueError "bad recipe"), logged 0 "broken" demo_world).
Proof.
  pose proof (generator_failure_propagation demo_funcs demo_world
                (logged 0 "broken" demo_world) 0 "broken"
                (mkFieldRecipe DERIVED "broken" EmptyString None (Some 2) None) 2
                (mkExn ValueError "bad recipe") false true true PNone
                eq_refl (or_introl eq_refl) eq_refl eq_refl eq_refl) as [H1 H2].
  split; [exact H1 | exact (H2 (or_intror eq_refl))].
Defined.

(** C5 as stated fails: the generator of ["needs_y"] raises a KeyError, and
    [get] returns the default value. *)
Lemma get_swallows_generator_KeyError :
  call (demo_funcs 1) 0 [] (logged 0 "needs_y" demo_world)
  = (Raise (key_error_unknown "y"), logged 0 "needs_y" demo_world)
  /\ __getitem__ demo_funcs 0 "needs_y" demo_world
     = (Raise (key_error_unknown "y"), logged 0 "needs_y" demo_world)
  /\ get demo_funcs 0 "needs_y" (PInt 0) true false demo_world
     = (Ok (PInt 0), logged 0 "needs_y" demo_world).
Proof. repeat split. Qed.

Lemma get_allow_derived_false_witness :
  get demo_funcs 0 "x" PNone false false demo_world
  = (Ok (PArray [3] [1; 2; 3]%Z), demo_world).
Proof.
  apply (proj2 (proj2 (get_allow_derived_false demo_funcs demo_world 0 "x" PNone false)));
    reflexivity.
Defined.

(** C6 as stated fails: a key with a stored field and a recipe is refused. *)
Lemma get_refuses_stored_field_with_recipe :
  PyDict.getitem "double" (fields (deref derived_world 0)) = Some (PArray [3] [2; 4; 6]%Z)
  /\ get demo_funcs 0 "double" PNone false false derived_world
     = (Raise (key_error_derived "double"), derived_world).
Proof. repeat split. Qed.

(** ** Caching of derived fields *)

Lemma store_field_deref self key field w :
  allocated w self ->
  deref (store_field self key field w) self
  = set_fields (PyDict.setitem key field (fields (deref w self))) (deref w self).
Proof. intros H. unfold store_field, modify. simpl. now rewrite deref_alter_eq. Qed.

Lemma store_field_allocated self key field w l :
  allocated (store_field self key field w) l <-> allocated w l.
Proof. unfold allocated, store_field, modify. simpl. now rewrite length_alter. Qed.

(** C2, as the code has it: a derived field is cached by the subscript read
    [C[k]], not by [get].  [get] hands back what the generator returned and
    leaves the world as the generator left it; after [C[k]] succeeded the
    value is in [fields], and a further [C[k]] or [get] returns it with the
    world unchanged, so with no further call, as long as the generator did
    not turn the key into an alias or a child container. *)
Theorem getitem_caches_get_does_not (funcs : Func -> Callable) (w w1 : World)
    (self : Loc) (key : string) (rc : FieldRecipe) (f : Func) (v dflt : PyVal) :
  let c := deref w self in
  let k := resolve_alias c key in
  PyDict.getitem k (containers c) = None ->
  PyDict.getitem k (fields c) = None ->
  PyDict.getitem k (fieldrecipes c) = Some rc -> func rc = Some f ->
  get funcs self key dflt true false w =
    match call (funcs f) self (recipe_kwargs (funcs f) (fieldrecipes_kwargs c))
            (logged self k w) with
    | (Ok field, w2) => (Ok field, w2)
    | (Raise e, w2) => if isinstance_KeyError e then (Ok dflt, w2) else (Raise e, w2)
    end
  /\
  (__getitem__ funcs self key w = (Ok v, w1) ->
   allocated w1 self ->
   resolve_alias (deref w1 self) key = k ->
   PyDict.getitem k (containers (deref w1 self)) = None ->
   PyDict.getitem k (fields (deref w1 self)) = Some v /\
   __getitem__ funcs self key w1 = (Ok v, w1) /\
   get funcs self key dflt true false w1 = (Ok v, w1)).
Proof.
  intros c k Hc Hf Hr Hfunc. split.
  - unfold get. rewrite andb_false_r.
    rewrite (getitem_recipe_branch funcs self key false false w rc f Hc (or_introl Hf) Hr Hfunc).
    fold c k.
    destruct (call (funcs f) self _ _) as [[field|e] w2]; reflexivity.
  - intros Hget Ha1 Hk1 Hc1. unfold __getitem__ in *.
    rewrite (getitem_recipe_branch funcs self key false true w rc f Hc (or_introl Hf) Hr Hfunc)
      in Hget.
    fold c k in Hget.
    destruct (call (funcs f) self _ _) as [[field|e] w2]; [|discriminate].
    injection Hget as -> <-.
    assert (Hv : PyDict.getitem k (fields (deref (store_field self k v w2) self)) = Some v).
    { rewrite store_field_deref by (now apply store_field_allocated in Ha1).
      simpl. apply getitem_setitem_eq. }
    assert (Hread : forall ud,
               _getitem funcs self key false ud (store_field self k v w2)
               = (Ok v, store_field self k v w2)).
    { intros ud. apply getitem_field_branch; now rewrite Hk1. }
    split; [exact Hv|]. split; [apply Hread|].
    unfold get. rewrite andb_false_r, Hread. reflexivity.
Qed.

Lemma getitem_caches_get_does_not_witness :
  get demo_funcs 0 "double" PNone true false demo_world
  = (Ok (PArray [3] [2; 4; 6]%Z), logged 0 "double" demo_world)
  /\ PyDict.getitem "double" (fields (deref derived_world 0)) = Some (PArray [3] [2; 4; 6]%Z)
  /\ __getitem__ demo_funcs 0 "double" derived_world
     = (Ok (PArray [3] [2; 4; 6]%Z), derived_world)
  /\ get demo_funcs 0 "double" PNone true false derived_world
     = (Ok (PArray [3] [2; 4; 6]%Z), derived_world).
Proof.
  pose proof (getitem_caches_get_does_not demo_funcs demo_world derived_world 0 "double"
                (mkFieldRecipe DERIVED "double" EmptyString None (Some 0) None) 0
                (PArray [3] [2; 4; 6]%Z) PNone eq_refl eq_refl eq_refl eq_refl) as [H1 H2].
  split; [exact H1|].
  apply H2; try reflexivity.
  vm_compute. lia.
Defined.

(** C2 as stated fails: after [get] derived ["double"] the key is still not
    in [fields], and a second [get] calls the generator a second time. *)
Lemma get_does_not_cache :
  PyDict.contains "double" (fieldrecipes (deref demo_world 0)) = true
  /\ PyDict.contains "double" (fields (deref demo_world 0)) = false
  /\ get demo_funcs 0 "double" PNone true false demo_world
     = (Ok (PArray [3] [2; 4; 6]%Z), logged 0 "double" demo_world)
  /\ PyDict.contains "double" (fields (deref (logged 0 "double" demo_world) 0)) = false
  /\ calls (logged 0 "double" demo_world) = [(0, "double")]
  /\ calls (snd (get demo_funcs 0 "double" PNone true false (logged 0 "double" demo_world)))
     = [(0, "double"); (0, "double")].
Proof. repeat split. Qed.

(** ** Construction leaves the objects that exist alone *)

Lemma frame_refl w : frame w w.
Proof. repeat split; auto. Qed.

Lemma frame_trans w1 w2 w3 : frame w1 w2 -> frame w2 w3 -> frame w1 w3.
Proof.
  intros (H1 & C1 & F1) (H2 & C2 & F2). repeat split; [lia | congruence |].
  intros l Hl. rewrite F2, F1; auto. unfold allocated in *. lia.
Qed.

Lemma frame_alloc w c : frame w (snd (alloc c w)).
Proof.
  unfold alloc. simpl. repeat split; simpl.
  - rewrite length_app. lia.
  - intros l Hl. now apply deref_app_old.
Qed.

Lemma frame_modify_new w0 w l f :
  frame w0 w -> ~ allocated w0 l -> frame w0 (snd (modify l f w)).
Proof.
  intros (H & C & F) Hl. unfold modify. simpl. repeat split; simpl; auto.
  - now rewrite length_alter.
  - intros l' Hl'. rewrite deref_alter_ne by (intros ->; tauto). auto.
Qed.

Lemma init_children_frame w0 self fkws names :
  ~ allocated w0 self ->
  forall w, frame w0 w ->
    exists w',
      for_each names (fun k =>
          child <- alloc (fresh_container fkws) ;;
          modify self (fun c => set_containers (PyDict.setitem k child (containers c)) c)) w
      = (Ok tt, w') /\ frame w0 w'.
Proof.
  intros Hs. induction names as [|k names IH]; intros w Hw; simpl.
  - exists w. auto.
  - unfold bind at 1. unfold bind at 1. unfold alloc at 1. cbn beta iota.
    unfold modify at 1. cbn beta iota.
    apply IH.
    apply (frame_modify_new w0 (snd (alloc (fresh_container fkws) w))); auto.
    eapply frame_trans; [exact Hw | apply frame_alloc].
Qed.

Lemma init_children_length self fkws names w w' :
  for_each names (fun k =>
      child <- alloc (fresh_container fkws) ;;
      modify self (fun c => set_containers (PyDict.setitem k child (containers c)) c)) w
  = (Ok tt, w') -> length (heap w) <= length (heap w').
Proof.
  revert w. induction names as [|k names IH]; intros w; simpl.
  - intros [= <-]. lia.
  - unfold bind at 1. unfold bind at 1. unfold alloc at 1, modify at 1.
    cbn beta iota. intros H. apply IH in H. simpl in H.
    rewrite length_alter, length_app in H. lia.
Qed.

Lemma init_frame init_fields init_name kw cs als w :
  exists w',
    FieldContainer__init__ init_fields init_name kw cs als w = (Ok (length (heap w)), w')
    /\ frame w w' /\ allocated w' (length (heap w)).
Proof.
  unfold FieldContainer__init__. unfold bind at 1. unfold alloc at 1. cbn beta iota.
  set (obj := mkFieldContainer _ _ _ _ _ _ _).
  destruct (init_children_frame w (length (heap w)) (default [] kw) (default [] cs)
              ltac:(unfold allocated; lia)
              (snd (alloc obj w)) (frame_alloc w obj)) as (w' & Hrun & Hfr).
  exists w'.
  change (snd (alloc obj w)) with (mkWorld (heap w ++ [obj]) (calls w)) in Hrun.
  unfold bind at 1. rewrite Hrun. unfold ret.
  repeat split; try apply Hfr.
  apply init_children_length in Hrun. simpl in Hrun.
  rewrite length_app in Hrun. simpl in Hrun. unfold allocated. lia.
Qed.

(** ** The two buckets *)










(** ** Merge *)

Lemma merge_step_run self other ow k w ok :
  allocated w self -> allocated w other -> self <> other ->
  PyDict.getitem k (containers (deref w other)) = Some ok ->
  exists sk,
    PyDict.getitem k (containers (deref (ensure_child self k w) self)) = Some sk /\
    (PyDict.getitem k (containers (deref w self)) = Some sk \/
     (PyDict.getitem k (containers (deref w self)) = None /\ sk = length (heap w))) /\
    merge_step self other ow k w
    = (Ok tt, copy_into (if ow then sk else ok) (if ow then ok else sk)
                (ensure_child self k w)).
Proof.
  intros Hs Ho Hne Hok. unfold ensure_child.
  destruct (PyDict.getitem k (containers (deref w self))) as [sk|] eqn:E.
  - exists sk. split; [exact E|]. split; [now left|].
    unfold merge_step, PyDict.contains. unfold bind at 1. unfold read at 1.
    cbn beta iota. rewrite E. unfold bind at 1. unfold ret at 1. cbn beta iota.
    unfold bind at 1. unfold read at 1. cbn beta iota.
    unfold bind at 1. unfold read at 1. cbn beta iota.
    unfold subscript. rewrite E, Hok.
    unfold bind at 1. unfold ret at 1. cbn beta iota.
    unfold bind at 1. unfold ret at 1. cbn beta iota.
    destruct ow; reflexivity.
  - set (w0 := snd (alloc (fresh_container (fieldrecipes_kwargs (deref w self))) w)).
    set (w1 := snd (modify self _ w0)).
    assert (Hs0 : allocated w0 self).
    { unfold allocated, w0 in *. simpl. rewrite length_app. lia. }
    assert (Hself : deref w1 self
                    = set_containers (PyDict.setitem k (length (heap w))
                                        (containers (deref w self))) (deref w self)).
    { unfold w1. rewrite deref_modify_eq by auto.
      unfold w0, alloc. cbn [snd]. now rewrite deref_app_old. }
    assert (Hother : deref w1 other = deref w other).
    { unfold w1. rewrite deref_modify_ne by auto.
      unfold w0, alloc. cbn [snd]. now rewrite deref_app_old. }
    exists (length (heap w)). split; [|split; [now right|]].
    + rewrite Hself. simpl. apply getitem_setitem_eq.
    + unfold merge_step, PyDict.contains. unfold bind at 1. unfold read at 1.
      cbn beta iota. rewrite E.
      unfold bind at 1. unfold bind at 1.
      change (FieldContainer__init__ [] PNone
                (Some (fieldrecipes_kwargs (deref w self))) None None w)
        with (Ok (length (heap w)), w0).
      cbn beta iota. fold w1.
      change (modify self _ w0) with (Ok tt, w1). cbn beta iota.
      unfold bind at 1. unfold read at 1. cbn beta iota.
      unfold bind at 1. unfold read at 1. cbn beta iota.
      rewrite Hself, Hother. cbn [containers set_containers].
      unfold subscript. rewrite getitem_setitem_eq, Hok.
      unfold bind at 1. unfold ret at 1. cbn beta iota.
      unfold bind at 1. unfold ret at 1. cbn beta iota.
      destruct ow; reflexivity.
Qed.

Lemma values_app {V} (d1 d2 : dict V) :
  PyDict.values (d1 ++ d2) = PyDict.values d1 ++ PyDict.values d2.
Proof. unfold PyDict.values. apply map_app. Qed.

Lemma getitem_values_inj (d : dict nat) k1 k2 l :
  NoDup (PyDict.values d) ->
  PyDict.getitem k1 d = Some l -> PyDict.getitem k2 d = Some l -> k1 = k2.
Proof.
  induction d as [|[k v] d IH]; simpl; [discriminate|].
  intros Hnd. apply NoDup_cons in Hnd as [Hv Hnd].
  destruct (String.eqb_spec k1 k); destruct (String.eqb_spec k2 k); subst; auto.
  - intros [= ->] H. apply getitem_Some_values in H. tauto.
  - intros H [= ->]. apply getitem_Some_values in H. tauto.
Qed.

Lemma separated_facts w self other :
  separated w self other ->
  self <> other /\
  NoDup (PyDict.values (containers (deref w self))) /\
  NoDup (PyDict.values (containers (deref w other))) /\
  (forall l, l ∈ PyDict.values (containers (deref w self)) ->
             l <> self /\ l <> other /\ allocated w l /\
             l ∉ PyDict.values (containers (deref w other))) /\
  (forall l, l ∈ PyDict.values (containers (deref w other)) ->
             l <> self /\ l <> other /\ allocated w l /\
             l ∉ PyDict.values (containers (deref w self))).
Proof.
  intros [Hs Ho Hch _ _ Hnd].
  apply NoDup_cons in Hnd as [Hself Hnd].
  apply NoDup_cons in Hnd as [Hother Hnd].
  apply NoDup_app in Hnd as (Hns & Hdisj & Hno).
  rewrite not_elem_of_cons, not_elem_of_app in Hself.
  rewrite not_elem_of_app in Hother.
  repeat split; try tauto.
  - intros ->. tauto.
  - intros ->. tauto.
  - apply Hch, elem_of_app. now left.
  - now apply Hdisj.
  - intros ->. tauto.
  - intros ->. tauto.
  - apply Hch, elem_of_app. now right.
  - intros H'. now apply (Hdisj l).
Qed.

Lemma separated_intro w self other :
  allocated w self -> allocated w other -> self <> other ->
  wf_dict (containers (deref w self)) -> wf_dict (containers (deref w other)) ->
  NoDup (PyDict.values (containers (deref w self))) ->
  NoDup (PyDict.values (containers (deref w other))) ->
  (forall l, l ∈ PyDict.values (containers (deref w self)) ->
             l <> self /\ l <> other /\ allocated w l /\
             l ∉ PyDict.values (containers (deref w other))) ->
  (forall l, l ∈ PyDict.values (containers (deref w other)) ->
             l <> self /\ l <> other /\ allocated w l) ->
  separated w self other.
Proof.
  intros Hs Ho Hne Hws Hwo Hns Hno Hvs Hvo. constructor; auto.
  - intros l Hl. apply elem_of_app in Hl as [Hl|Hl].
    + now apply Hvs. + now apply Hvo.
  - apply NoDup_cons. split.
    + rewrite not_elem_of_cons, not_elem_of_app. repeat split; auto.
      * intros H. now apply Hvs in H.
      * intros H. now apply Hvo in H.
    + apply NoDup_cons. split.
      * rewrite not_elem_of_app. split.
        -- intros H. now apply Hvs in H.
        -- intros H. now apply Hvo in H.
      * apply NoDup_app. repeat split; auto.
        intros l Hl. now apply Hvs.
Qed.

(** A world that keeps the children of [self] and [other] keeps them apart. *)
Lemma separated_same_children w w' self other :
  separated w self other ->
  length (heap w) <= length (heap w') ->
  containers (deref w' self) = containers (deref w self) ->
  containers (deref w' other) = containers (deref w other) ->
  separated w' self other.
Proof.
  intros [Hs Ho Hch Hws Hwo Hnd] Hlen Hcs Hco.
  constructor; rewrite ?Hcs, ?Hco; auto; unfold allocated in *; try lia.
  intros l Hl. apply Hch in Hl. lia.
Qed.

Lemma copy_into_length c1 c2 w : length (heap (copy_into c1 c2 w)) = length (heap w).
Proof. unfold copy_into, modify. cbn [snd heap]. now rewrite !length_alter. Qed.

Lemma copy_into_calls c1 c2 w : calls (copy_into c1 c2 w) = calls w.
Proof. reflexivity. Qed.

Lemma copy_into_other c1 c2 w l :
  l <> c1 -> deref (copy_into c1 c2 w) l = deref w l.
Proof.
  intros H. unfold copy_into. now rewrite !deref_modify_ne by auto.
Qed.

Lemma copy_into_target c1 c2 w :
  allocated w c1 -> c1 <> c2 ->
  deref (copy_into c1 c2 w) c1 = merged (deref w c1) (deref w c2).
Proof.
  intros Ha Hne. unfold copy_into, merged.
  rewrite deref_modify_eq by now apply modify_allocated.
  rewrite deref_modify_eq by auto.
  rewrite deref_modify_ne by auto. reflexivity.
Qed.

Lemma copy_into_containers c1 c2 w l :
  containers (deref (copy_into c1 c2 w) l) = containers (deref w l).
Proof.
  destruct (decide (l = c1)) as [->|Hne]; [|now rewrite copy_into_other].
  unfold copy_into, deref, modify. cbn [snd heap].
  rewrite !list_lookup_alter_eq.
  destruct (heap w !! c1); reflexivity.
Qed.

Lemma getitem_snoc {V} k0 k (v : V) (d : dict V) :
  PyDict.getitem k0 (d ++ [(k, v)]) =
    match PyDict.getitem k0 d with
    | Some x => Some x
    | None => if String.eqb k0 k then Some v else None
    end.
Proof.
  induction d as [|[k1 v1] d IH]; simpl; auto.
  destruct (String.eqb k0 k1); auto.
Qed.

Lemma ensure_child_present self k w sk :
  PyDict.getitem k (containers (deref w self)) = Some sk -> ensure_child self k w = w.
Proof. intros H. unfold ensure_child. now rewrite H. Qed.

Lemma ensure_child_absent self k w :
  allocated w self ->
  PyDict.getitem k (containers (deref w self)) = None ->
  length (heap (ensure_child self k w)) = S (length (heap w)) /\
  calls (ensure_child self k w) = calls w /\
  deref (ensure_child self k w) self
  = set_containers (containers (deref w self) ++ [(k, length (heap w))]) (deref w self) /\
  deref (ensure_child self k w) (length (heap w))
  = fresh_container (fieldrecipes_kwargs (deref w self)) /\
  (forall l, allocated w l -> l <> self -> deref (ensure_child self k w) l = deref w l).
Proof.
  intros Hs E. unfold ensure_child. rewrite E.
  set (w0 := snd (alloc (fresh_container (fieldrecipes_kwargs (deref w self))) w)).
  assert (Hs0 : allocated w0 self).
  { unfold allocated, w0 in *. simpl. rewrite length_app. lia. }
  repeat split.
  - unfold modify, w0, alloc. cbn [snd heap]. rewrite length_alter, length_app.
    simpl. lia.
  - rewrite deref_modify_eq by auto. unfold w0, alloc. cbn [snd].
    rewrite deref_app_old by auto. now rewrite setitem_absent.
  - rewrite deref_modify_ne by (unfold allocated in Hs; lia).
    unfold w0, alloc. cbn [snd]. apply deref_app_new.
  - intros l Hl Hne. rewrite deref_modify_ne by auto.
    unfold w0, alloc. cbn [snd]. now apply deref_app_old.
Qed.

Lemma ensure_child_separated self other k w :
  separated w self other -> separated (ensure_child self k w) self other.
Proof.
  intros Hsep.
  destruct (PyDict.getitem k (containers (deref w self))) as [sk|] eqn:E.
  - now rewrite (ensure_child_present self k w sk).
  - pose proof (separated_facts _ _ _ Hsep) as (Hne & Hns & Hno & Hvs & Hvo).
    destruct Hsep as [Hs Ho Hch Hws Hwo Hnd].
    destruct (ensure_child_absent self k w Hs E) as (Hlen & _ & Hself & _ & Hfr).
    assert (Hoth : deref (ensure_child self k w) other = deref w other)
      by (apply Hfr; auto).
    apply separated_intro; rewrite ?Hself, ?Hoth; cbn [containers set_containers];
      unfold allocated in *; rewrite ?Hlen; auto; try lia.
    + rewrite <- setitem_absent by auto. now apply wf_dict_setitem.
    + rewrite values_app. apply NoDup_app. repeat split; auto.
      * intros l Hl Hl'. apply list_elem_of_singleton in Hl'. subst l.
        apply Hvs in Hl. simpl in Hl. lia.
      * apply NoDup_singleton.
    + intros l Hl. rewrite values_app in Hl. apply elem_of_app in Hl as [Hl|Hl].
      * apply Hvs in Hl as (? & ? & ? & ?). repeat split; auto.
      * apply list_elem_of_singleton in Hl. simpl in Hl. subst l.
        repeat split; try lia.
        intros H. apply Hvo in H. lia.
    + intros l Hl. apply Hvo in Hl as (? & ? & ? & ?). repeat split; auto.
Qed.

Lemma set_containers_same c : set_containers (containers c) c = c.
Proof. now destruct c. Qed.

Lemma ensure_child_post self k w :
  allocated w self ->
  exists sk,
    PyDict.getitem k (containers (deref (ensure_child self k w) self)) = Some sk /\
    (PyDict.getitem k (containers (deref w self)) = Some sk \/
     PyDict.getitem k (containers (deref w self)) = None /\ sk = length (heap w)) /\
    length (heap w) <= length (heap (ensure_child self k w)) /\
    calls (ensure_child self k w) = calls w /\
    (forall l, allocated w l -> l <> self -> deref (ensure_child self k w) l = deref w l) /\
    deref (ensure_child self k w) self
    = set_containers (containers (deref (ensure_child self k w) self)) (deref w self) /\
    deref (ensure_child self k w) sk = child_or_fresh w self k /\
    (forall k0 l, PyDict.getitem k0 (containers (deref w self)) = Some l ->
                  PyDict.getitem k0 (containers (deref (ensure_child self k w) self)) = Some l) /\
    (forall k0 l, PyDict.getitem k0 (containers (deref (ensure_child self k w) self)) = Some l ->
                  PyDict.getitem k0 (containers (deref w self)) = Some l \/
                  (PyDict.getitem k0 (containers (deref w self)) = None /\ k0 = k
                   /\ ~ allocated w l)).
Proof.
  intros Hs. unfold child_or_fresh.
  destruct (PyDict.getitem k (containers (deref w self))) as [sk|] eqn:E.
  - rewrite (ensure_child_present self k w sk E). exists sk.
    rewrite set_containers_same. repeat split; auto.
  - destruct (ensure_child_absent self k w Hs E) as (Hlen & Hcalls & Hself & Hnew & Hfr).
    exists (length (heap w)). rewrite Hself. cbn [containers set_containers].
    repeat split; auto; try lia.
    + rewrite getitem_snoc, E, String.eqb_refl. reflexivity.
    + intros k0 l H. now rewrite getitem_snoc, H.
    + intros k0 l. rewrite getitem_snoc.
      destruct (PyDict.getitem k0 (containers (deref w self))); [now left|].
      destruct (String.eqb_spec k0 k); [|discriminate].
      intros [= <-]. right. unfold allocated. repeat split; auto. lia.
Qed.

Lemma merge_step_post self other ow k w ok :
  separated w self other ->
  PyDict.getitem k (containers (deref w other)) = Some ok ->
  exists w',
    merge_step self other ow k w = (Ok tt, w') /\ merge_post ow self other [k] w w'.
Proof.
  intros Hsep Hok.
  pose proof (separated_facts _ _ _ Hsep) as (Hne & Hns & Hno & Hvs & Hvo).
  pose proof (sep_self _ _ _ Hsep) as Hs. pose proof (sep_other _ _ _ Hsep) as Ho.
  destruct (merge_step_run self other ow k w ok Hs Ho Hne Hok) as (sk & Hsk & _ & Hrun).
  destruct (ensure_child_post self k w Hs)
    as (sk' & Hsk' & Hcase & Hlen & Hcalls & Hfr & Hself & Hobj & Hkept & Hnew).
  assert (sk' = sk) by congruence. subst sk'.
  pose proof (ensure_child_separated self other k w Hsep) as Hsep1.
  set (w1 := ensure_child self k w) in *.
  pose proof (separated_facts _ _ _ Hsep1) as (_ & Hns1 & Hno1 & Hvs1 & Hvo1).
  assert (Hoth : deref w1 other = deref w other) by (apply Hfr; auto).
  assert (Hok1 : PyDict.getitem k (containers (deref w1 other)) = Some ok)
    by now rewrite Hoth.
  apply getitem_Some_values in Hsk as Hsk_in.
  apply getitem_Some_values in Hok1 as Hok_in.
  destruct (Hvs1 sk Hsk_in) as (Hsk_self & Hsk_other & Hsk_al & Hsk_no).
  destruct (Hvo1 ok Hok_in) as (Hok_self & Hok_other & Hok_al & Hok_ns).
  assert (Hskok : sk <> ok) by (intros ->; tauto).
  assert (Hok_w : deref w1 ok = deref w ok).
  { apply Hfr; auto. apply getitem_Some_values in Hok. now apply Hvo in Hok. }
  set (t := if ow then sk else ok) in *. set (s := if ow then ok else sk) in *.
  assert (Ht : t <> self /\ t <> other /\ allocated w1 t /\ t <> s)
    by (subst t s; destruct ow; repeat split; auto).
  destruct Ht as (Ht_self & Ht_other & Ht_al & Hts).
  exists (copy_into t s w1). split; [exact Hrun|].
  constructor.
  - apply (separated_same_children w1); auto.
    + now rewrite copy_into_length.
    + apply copy_into_containers.
    + apply copy_into_containers.
  - now rewrite copy_into_length.
  - rewrite copy_into_calls. exact Hcalls.
  - rewrite copy_into_containers. now rewrite Hoth.
  - rewrite copy_into_other by auto. exact Hself.
  - intros k0 l H. rewrite copy_into_containers. now apply Hkept.
  - intros k0 l. rewrite copy_into_containers. intros H.
    apply Hnew in H as [H | (H1 & -> & H3)]; [now left | right].
    repeat split; auto. constructor.
  - intros k0 Hk0. apply list_elem_of_singleton in Hk0. subst k0.
    exists sk, ok. split; [exact Hok|]. split; [now rewrite copy_into_containers|].
    split.
    + destruct Hcase as [H | [H ->]]; [now left | right].
      split; auto. unfold allocated. lia.
    + subst t s. destruct ow.
      * rewrite copy_into_target by auto. rewrite copy_into_other by auto.
        now rewrite Hobj, Hok_w.
      * rewrite copy_into_target by auto. rewrite copy_into_other by auto.
        now rewrite Hobj, Hok_w.
  - intros l Hl Hlself Hnt.
    assert (Hlt : l <> t).
    { specialize (Hnt k ltac:(constructor)). unfold merge_target in Hnt.
      subst t. destruct ow.
      - destruct Hcase as [H | [H ->]].
        + congruence.
        + unfold allocated in Hl. lia.
      - congruence. }
    rewrite copy_into_other by auto. now apply Hfr.
Qed.

Lemma merge_post_compose ow self other k ks w w1 w' :
  separated w self other -> k ∉ ks ->
  merge_post ow self other [k] w w1 ->
  merge_post ow self other ks w1 w' ->
  merge_post ow self other (k :: ks) w w'.
Proof.
  intros Hsep Hk P1 P2.
  pose proof (separated_facts _ _ _ Hsep) as (Hne & Hns & Hno & Hvs & Hvo).
  pose proof (separated_facts _ _ _ (mp_sep _ _ _ _ _ _ P1)) as (_ & Hns1 & Hno1 & Hvs1 & Hvo1).
  destruct P1 as [S1 L1 C1 O1 Self1 Kept1 New1 Child1 Frame1].
  destruct P2 as [S2 L2 C2 O2 Self2 Kept2 New2 Child2 Frame2].
  (* names other than [k] read the same child in [w] and in [w1] *)
  assert (Hsame : forall k0, k0 <> k ->
             PyDict.getitem k0 (containers (deref w1 self))
             = PyDict.getitem k0 (containers (deref w self))).
  { intros k0 Hk0.
    destruct (PyDict.getitem k0 (containers (deref w self))) as [l|] eqn:E.
    - now apply Kept1.
    - destruct (PyDict.getitem k0 (containers (deref w1 self))) as [l|] eqn:E1; auto.
      apply New1 in E1 as [E1 | (_ & Hin & _)]; [congruence|].
      apply list_elem_of_singleton in Hin. tauto. }
  constructor; auto.
  - lia.
  - congruence.
  - congruence.
  - rewrite Self2, Self1. reflexivity.
  - intros k0 l H.
    apply New2 in H as [H | (H & Hin & Hal)].
    + apply New1 in H as [H | (H & Hin & Hal)]; [now left | right].
      apply list_elem_of_singleton in Hin. subst k0. repeat split; auto. constructor.
    + right. repeat split.
      * destruct (PyDict.getitem k0 (containers (deref w self))) as [l'|] eqn:E; auto.
        apply Kept1 in E. congruence.
      * now constructor.
      * unfold allocated in *. lia.
  - intros k0 Hk0. apply elem_of_cons in Hk0 as [-> | Hk0].
    + destruct (Child1 k ltac:(constructor)) as (sk & ok & Hok & Hsk & Hcase & Hcont).
      assert (Hok1 : PyDict.getitem k (containers (deref w1 other)) = Some ok)
        by now rewrite O1.
      apply getitem_Some_values in Hsk as Hsk_in.
      apply getitem_Some_values in Hok1 as Hok_in.
      destruct (Hvs1 sk Hsk_in) as (Hsk_self & _ & Hsk_al & Hsk_no).
      destruct (Hvo1 ok Hok_in) as (Hok_self & _ & Hok_al & Hok_ns).
      assert (Fsk : deref w' sk = deref w1 sk).
      { apply Frame2; auto. intros k' Hk' Ht. unfold merge_target in Ht. destruct ow.
        - assert (k' = k) by exact (getitem_values_inj _ k' k sk Hns1 Ht Hsk).
          congruence.
        - apply getitem_Some_values in Ht. tauto. }
      assert (Fok : deref w' ok = deref w1 ok).
      { apply Frame2; auto. intros k' Hk' Ht. unfold merge_target in Ht. destruct ow.
        - apply getitem_Some_values in Ht. tauto.
        - assert (k' = k) by exact (getitem_values_inj _ k' k ok Hno1 Ht Hok1).
          congruence. }
      exists sk, ok. repeat split; auto.
      * destruct ow; rewrite Fsk, Fok; exact Hcont.
    + assert (Hk0k : k0 <> k) by congruence.
      destruct (Child2 k0 Hk0) as (sk & ok & Hok & Hsk & Hcase & Hcont).
      rewrite O1 in Hok. rewrite (Hsame k0 Hk0k) in Hcase.
      apply getitem_Some_values in Hok as Hok_in.
      destruct (Hvo ok Hok_in) as (Hok_self & _ & Hok_al & Hok_ns).
      assert (Fok : deref w1 ok = deref w ok).
      { apply Frame1; auto. intros k' Hk' Ht.
        apply list_elem_of_singleton in Hk'. subst k'.
        unfold merge_target in Ht. destruct ow.
        - apply getitem_Some_values in Ht. tauto.
        - assert (k0 = k) by exact (getitem_values_inj _ k0 k ok Hno Hok Ht).
          congruence. }
      assert (Fch : child_or_fresh w1 self k0 = child_or_fresh w self k0).
      { unfold child_or_fresh. rewrite (Hsame k0 Hk0k).
        destruct (PyDict.getitem k0 (containers (deref w self))) as [l|] eqn:E.
        - apply getitem_Some_values in E as El.
          destruct (Hvs l El) as (Hl_self & _ & Hl_al & Hl_no).
          apply Frame1; auto. intros k' Hk' Ht.
          apply list_elem_of_singleton in Hk'. subst k'.
          unfold merge_target in Ht. destruct ow.
          + assert (k0 = k) by exact (getitem_values_inj _ k0 k l Hns E Ht).
            congruence.
          + apply getitem_Some_values in Ht. tauto.
        - rewrite Self1. reflexivity. }
      exists sk, ok. split; [exact Hok|]. split; [exact Hsk|]. split.
      * destruct Hcase as [H | [H Hal]]; [now left | right].
        split; auto. unfold allocated in *. lia.
      * rewrite Fok, Fch in Hcont. exact Hcont.
  - intros l Hl Hlself Hnt.
    rewrite Frame2; auto.
    + apply Frame1; auto. intros k' Hk'. apply Hnt.
      apply list_elem_of_singleton in Hk'. subst k'. constructor.
    + unfold allocated in *. lia.
    + intros k' Hk' Ht. unfold merge_target in Ht. destruct ow.
      * apply New1 in Ht as [Ht | (_ & _ & Hal)]; [|tauto].
        apply (Hnt k'); [now constructor | exact Ht].
      * rewrite O1 in Ht. apply (Hnt k'); [now constructor | exact Ht].
Qed.

Lemma merge_post_nil ow self other w :
  separated w self other -> merge_post ow self other [] w w.
Proof.
  intros Hsep. constructor; auto.
  - now rewrite set_containers_same.
  - intros k Hk. inversion Hk.
Qed.

Lemma merge_loop ow self other ks :
  forall w,
    separated w self other -> NoDup ks ->
    (forall k, k ∈ ks -> k ∈ PyDict.keys (containers (deref w other))) ->
    exists w',
      for_each ks (merge_step self other ow) w = (Ok tt, w')
      /\ merge_post ow self other ks w w'.
Proof.
  induction ks as [|k ks IH]; intros w Hsep Hnd Hks.
  - exists w. split; [reflexivity | now apply merge_post_nil].
  - apply NoDup_cons in Hnd as [Hk Hnd].
    destruct (keys_getitem k (containers (deref w other))) as [ok Hok];
      [apply Hks; constructor|].
    destruct (merge_step_post self other ow k w ok Hsep Hok) as (w1 & Hrun1 & P1).
    destruct (IH w1 (mp_sep _ _ _ _ _ _ P1) Hnd) as (w' & Hrun & P2).
    { intros k' Hk'. rewrite (mp_other _ _ _ _ _ _ P1). apply Hks. now constructor. }
    exists w'. split.
    + simpl. unfold bind. now rewrite Hrun1.
    + now apply (merge_post_compose ow self other k ks w w1 w').
Qed.

Lemma merge_run ow self other w :
  separated w self other ->
  exists w',
    merge self (PContainer other) ow w = (Ok tt, w')
    /\ merge_post ow self other (PyDict.keys (containers (deref w other))) w w'.
Proof.
  intros Hsep. unfold merge, bind, read. cbn beta iota.
  apply merge_loop; auto. apply (sep_keys_other _ _ _ Hsep).
Qed.

Lemma separated_merge_world : separated merge_world 2 0.
Proof.
  constructor.
  - vm_compute. lia.
  - vm_compute. lia.
  - intros l Hl. vm_compute in Hl.
    repeat (apply elem_of_cons in Hl as [->|Hl]; [vm_compute; lia|]).
    inversion Hl.
  - vm_compute. apply NoDup_singleton.
  - vm_compute. apply NoDup_singleton.
  - vm_compute. apply NoDup_ListNoDup.
    repeat (constructor; [simpl; intuition discriminate|]). constructor.
Qed.

(** C9: without [overwrite], a merge of two trees that share no object
    writes into the children of [other]: each takes the fields and recipes
    of the child of [self] of the same name.  [other] itself and the
    children [self] had are as they were; [self] changes in [containers]
    only, where each name it lacked is bound to a new, empty container. *)
Theorem merge_no_overwrite_writes_argument (w : World) (self other : Loc) :
  separated w self other ->
  exists w',
    merge self (PContainer other) false w = (Ok tt, w') /\
    (forall k ok,
        PyDict.getitem k (containers (deref w other)) = Some ok ->
        deref w' ok = merged (deref w ok) (child_or_fresh w self k)) /\
    deref w' other = deref w other /\
    (forall k sk,
        PyDict.getitem k (containers (deref w self)) = Some sk ->
        PyDict.getitem k (containers (deref w' self)) = Some sk /\
        deref w' sk = deref w sk) /\
    deref w' self = set_containers (containers (deref w' self)) (deref w self) /\
    (forall k l,
        PyDict.getitem k (containers (deref w' self)) = Some l ->
        PyDict.getitem k (containers (deref w self)) = Some l \/
        (PyDict.getitem k (containers (deref w self)) = None /\
         k ∈ PyDict.keys (containers (deref w other)) /\
         ~ allocated w l /\
         deref w' l = fresh_container (fieldrecipes_kwargs (deref w self)))).
Proof.
  intros Hsep.
  pose proof (separated_facts _ _ _ Hsep) as (Hne & Hns & Hno & Hvs & Hvo).
  destruct (merge_run false self other w Hsep) as (w' & Hrun & P).
  destruct P as [S L C O Self Kept New Child Frame].
  exists w'. split; [exact Hrun|]. split; [|split; [|split; [|split]]].
  - intros k ok Hok.
    destruct (Child k (getitem_Some_keys _ _ _ Hok)) as (sk & ok' & Hok' & _ & _ & H & _).
    assert (ok' = ok) by congruence. now subst.
  - apply Frame; auto.
    + apply (sep_other _ _ _ Hsep).
    + intros k _ Ht. unfold merge_target in Ht.
      apply getitem_Some_values in Ht. apply Hvo in Ht. tauto.
  - intros k sk H. split; [now apply Kept|].
    apply getitem_Some_values in H. destruct (Hvs sk H) as (? & ? & ? & ?).
    apply Frame; auto.
    intros k' _ Ht. unfold merge_target in Ht.
    apply getitem_Some_values in Ht. tauto.
  - exact Self.
  - intros k l Hl. destruct (New k l Hl) as [H | (H & Hin & Hal)]; [now left | right].
    split; [exact H|]. split; [exact Hin|]. split; [exact Hal|].
    destruct (Child k Hin) as (sk & ok & _ & Hsk & _ & _ & Hfresh).
    assert (sk = l) by congruence. subst sk.
    rewrite Hfresh. unfold child_or_fresh. now rewrite H.
Qed.

Lemma merge_no_overwrite_writes_argument_witness :
  exists w',
    merge 2 (PContainer 0) false merge_world = (Ok tt, w')
    /\ deref w' 1 = merged (deref merge_world 1) (deref merge_world 3)
    /\ PyDict.getitem "b" (fields (deref w' 1)) = Some (PInt 7)
    /\ deref w' 3 = deref merge_world 3.
Proof.
  destruct (merge_no_overwrite_writes_argument merge_world 2 0 separated_merge_world)
    as (w' & Hrun & Hother & _ & Hself & _).
  exists w'. split; [exact Hrun|].
  pose proof (Hother "gas" 1 eq_refl) as H1.
  split; [exact H1|]. split.
  - rewrite H1. reflexivity.
  - apply (Hself "gas" 3 eq_refl).
Defined.

(** C3, as the code has it: with [overwrite], a merge of two trees that
    share no object writes into the children of [self]: each takes the
    fields and recipes of the child of [other] of the same name, so on a
    key both define the entry of [other] replaces the one [self] had, and
    the other entries of [self] stay.  [other] and its children are as
    they were, and of [self] itself only [containers] can change: its own
    fields are not merged. *)
Theorem merge_overwrite_argument_wins (w : World) (self other : Loc) :
  separated w self other ->
  exists w',
    merge self (PContainer other) true w = (Ok tt, w') /\
    (forall k ok,
        PyDict.getitem k (containers (deref w other)) = Some ok ->
        exists sk,
          PyDict.getitem k (containers (deref w' self)) = Some sk /\
          (PyDict.getitem k (containers (deref w self)) = Some sk \/
           PyDict.getitem k (containers (deref w self)) = None /\ ~ allocated w sk) /\
          deref w' sk = merged (child_or_fresh w self k) (deref w ok) /\
          deref w' ok = deref w ok /\
          (wf_dict (fields (deref w ok)) ->
           forall f,
             PyDict.getitem f (fields (deref w' sk)) =
               match PyDict.getitem f (fields (deref w ok)) with
               | Some v => Some v
               | None => PyDict.getitem f (fields (child_or_fresh w self k))
               end)) /\
    deref w' other = deref w other /\
    deref w' self = set_containers (containers (deref w' self)) (deref w self).
Proof.
  intros Hsep.
  pose proof (separated_facts _ _ _ Hsep) as (Hne & Hns & Hno & Hvs & Hvo).
  destruct (merge_run true self other w Hsep) as (w' & Hrun & P).
  destruct P as [S L C O Self Kept New Child Frame].
  exists w'. split; [exact Hrun|]. split; [|split].
  - intros k ok Hok.
    destruct (Child k (getitem_Some_keys _ _ _ Hok))
      as (sk & ok' & Hok' & Hsk & Hcase & Ht & Hs).
    assert (ok' = ok) by congruence. subst ok'.
    exists sk. split; [exact Hsk|]. split; [exact Hcase|].
    split; [exact Ht|]. split; [exact Hs|].
    intros Hwf f. rewrite Ht. unfold merged. simpl.
    now apply getitem_update.
  - apply Frame; auto.
    + apply (sep_other _ _ _ Hsep).
    + intros k _ Ht. unfold merge_target in Ht.
      apply getitem_Some_values in Ht. apply Hvs in Ht. tauto.
  - exact Self.
Qed.

Lemma merge_overwrite_argument_wins_witness :
  exists w',
    merge 2 (PContainer 0) true merge_world = (Ok tt, w')
    /\ PyDict.getitem "a" (fields (deref w' 3)) = Some (PInt 1)
    /\ PyDict.getitem "b" (fields (deref w' 3)) = Some (PInt 7)
    /\ PyDict.getitem "a" (fields (deref w' 2)) = Some (PInt 2).
Proof.
  destruct (merge_overwrite_argument_wins merge_world 2 0 separated_merge_world)
    as (w' & Hrun & Hchild & _ & Hself).
  exists w'. split; [exact Hrun|].
  destruct (Hchild "gas" 1 eq_refl) as (sk & Hsk & Hcase & _ & _ & Hget).
  assert (sk = 3).
  { destruct Hcase as [H | [H _]]; vm_compute in H; congruence. }
  subst sk.
  assert (Hwf : wf_dict (fields (deref merge_world 1)))
    by (vm_compute; apply NoDup_singleton).
  split; [|split].
  - rewrite (Hget Hwf "a"). reflexivity.
  - rewrite (Hget Hwf "b"). reflexivity.
  - rewrite Hself. reflexivity.
Defined.

(** C3 as stated fails: both children named ["gas"] define [a], and after
    the merge with [overwrite] the child of [self] holds the value of
    [other], 1, not its own 2. *)
Lemma merge_overwrite_replaces_self_entry :
  PyDict.getitem "gas" (containers (deref merge_world 0)) = Some 1
  /\ PyDict.getitem "gas" (containers (deref merge_world 2)) = Some 3
  /\ PyDict.getitem "a" (fields (deref merge_world 1)) = Some (PInt 1)
  /\ PyDict.getitem "a" (fields (deref merge_world 3)) = Some (PInt 2)
  /\ fst (merge 2 (PContainer 0) true merge_world) = Ok tt
  /\ PyDict.getitem "a"
       (fields (deref (snd (merge 2 (PContainer 0) true merge_world)) 3)) = Some (PInt 1).
Proof. repeat split. Qed.

(** ** More on reads and writes *)

(** X1: with [allow_derived] left on, [get] never raises a KeyError: one
    raised anywhere in the lookup, the generator included, is caught. *)
Theorem get_never_raises_KeyError (funcs : Func -> Callable) (w w' : World)
    (self : Loc) (key : string) (value : PyVal) (fd : bool) (e : Exn) :
  get funcs self key value true fd w = (Raise e, w') ->
  isinstance_KeyError e = false.
Proof.
  unfold get. rewrite andb_false_r.
  destruct (_getitem funcs self key fd false w) as [[v|e'] w1]; [discriminate|].
  destruct (isinstance_KeyError e') eqn:E; [discriminate|].
  intros [= <- _]. exact E.
Qed.

Lemma get_never_raises_KeyError_witness :
  isinstance_KeyError (mkExn ValueError "bad recipe") = false.
Proof.
  apply (get_never_raises_KeyError demo_funcs demo_world (logged 0 "broken" demo_world)
           0 "broken" PNone false).
  reflexivity.
Defined.

(** X2: a key that, after the alias, names no child, no recipe and no
    field makes [get] return the default and leave the world alone; so does
    a forced read of a stored field that has no recipe. *)
Theorem get_missing_returns_default (funcs : Func -> Callable) (w : World)
    (self : Loc) (key : string) (value : PyVal) (ad fd : bool) :
  let c := deref w self in
  let k := resolve_alias c key in
  PyDict.getitem k (containers c) = None ->
  PyDict.getitem k (fields c) = None \/ fd = true ->
  PyDict.getitem k (fieldrecipes c) = None ->
  PyDict.contains key (fieldrecipes c) = false \/ ad = true ->
  get funcs self key value ad fd w = (Ok value, w).
Proof.
  intros c k Hc Hf Hr Had. unfold get. fold c.
  replace (PyDict.contains key (fieldrecipes c) && negb ad) with false
    by (destruct Had as [-> | ->]; auto using andb_false_r).
  now rewrite (getitem_unknown_branch funcs self key fd false w Hc Hf Hr).
Qed.

Lemma get_missing_returns_default_witness :
  get demo_funcs 0 "z" (PInt 0) true false demo_world = (Ok (PInt 0), demo_world)
  /\ get demo_funcs 0 "x" (PInt 0) true true demo_world = (Ok (PInt 0), demo_world).
Proof.
  split.
  - apply (get_missing_returns_default demo_funcs demo_world 0 "z" (PInt 0) true false);
      try reflexivity; now left.
  - apply (get_missing_returns_default demo_funcs demo_world 0 "x" (PInt 0) true true);
      try reflexivity; now right.
Defined.

(** X3: what was assigned is what is read back, with no generator run:
    a child container always, any other value when the key names no child;
    the key must not be an alias. *)
Theorem setitem_getitem_roundtrip (funcs : Func -> Callable) (w : World)
    (self : Loc) (key : string) (value : PyVal) :
  allocated w self ->
  resolve_alias (deref w self) key = key ->
  match value with
  | PContainer _ => True
  | _ => PyDict.getitem key (containers (deref w self)) = None
  end ->
  __getitem__ funcs self key (snd (__setitem__ self key value w))
  = (Ok value, snd (__setitem__ self key value w)).
Proof.
  intros Ha Hal Hv. unfold __getitem__, __setitem__.
  destruct value;
    try (apply getitem_field_branch; rewrite deref_modify_eq by auto;
         cbn [aliases containers fields set_fields]; unfold resolve_alias in *;
         cbn [aliases set_fields]; rewrite Hal;
         [exact Hv | apply getitem_setitem_eq]).
  apply getitem_container_branch. rewrite deref_modify_eq by auto.
  unfold resolve_alias in *. cbn [aliases containers set_containers]. rewrite Hal.
  apply getitem_setitem_eq.
Qed.

Lemma setitem_getitem_roundtrip_witness :
  __getitem__ demo_funcs 0 "rho" (snd (__setitem__ 0 "rho" (PArray [2] [4; 5]%Z) demo_world))
  = (Ok (PArray [2] [4; 5]%Z), snd (__setitem__ 0 "rho" (PArray [2] [4; 5]%Z) demo_world)).
Proof.
  apply (setitem_getitem_roundtrip demo_funcs demo_world 0 "rho" (PArray [2] [4; 5]%Z)).
  - vm_compute. lia.
  - reflexivity.
  - reflexivity.
Defined.

Lemma length_setitem {V} k (v : V) (d : dict V) :
  length (PyDict.setitem k v d)
  = if PyDict.contains k d then length d else S (length d).
Proof.
  unfold PyDict.contains.
  induction d as [|[k' v'] d IH]; simpl; auto.
  destruct (String.eqb k k'); simpl; auto.
  rewrite IH. destruct (PyDict.getitem k d); reflexivity.
Qed.

(** X4: assigning a value that is no container adds one to [fieldcount]
    when the key is new and leaves it when the key had a field; assigning
    a container never changes it. *)
Theorem fieldcount_after_setitem (w : World) (self : Loc) (key : string) (value : PyVal) :
  allocated w self ->
  fst (fieldcount self (snd (__setitem__ self key value w)))
  = Ok (match value with
        | PContainer _ => length (fields (deref w self))
        | _ => if PyDict.contains key (fields (deref w self))
               then length (fields (deref w self))
               else S (length (fields (deref w self)))
        end).
Proof.
  intros Ha. unfold fieldcount, bind, read, ret, __setitem__. cbn [fst].
  destruct value; rewrite deref_modify_eq by auto; cbn [fields set_fields set_containers];
    try rewrite length_setitem; reflexivity.
Qed.

Lemma fieldcount_after_setitem_witness :
  fst (fieldcount 0 (snd (__setitem__ 0 "rho" (PInt 1) demo_world))) = Ok 2
  /\ fst (fieldcount 0 (snd (__setitem__ 0 "x" (PInt 1) demo_world))) = Ok 1.
Proof.
  assert (Ha : allocated demo_world 0) by (vm_compute; lia).
  split.
  - rewrite (fieldcount_after_setitem demo_world 0 "rho" (PInt 1) Ha). reflexivity.
  - rewrite (fieldcount_after_setitem demo_world 0 "x" (PInt 1) Ha). reflexivity.
Defined.

(** X5: once [add_alias(alias, name)] ran, reading the alias is reading
    the name, in result and in effect, when the name is not itself an alias
    of something else. *)
Theorem alias_read_is_target_read (funcs : Func -> Callable) (w : World) (self : Loc)
    (alias name : string) (fd ud : bool) :
  allocated w self ->
  resolve_alias (deref w self) name = name ->
  _getitem funcs self alias fd ud (snd (add_alias self alias name w))
  = _getitem funcs self name fd ud (snd (add_alias self alias name w)).
Proof.
  intros Ha Hn. rewrite !getitem_run. cbv zeta.
  unfold add_alias. rewrite deref_modify_eq by auto.
  assert (H1 : resolve_alias (set_aliases (PyDict.setitem alias name (aliases (deref w self)))
                                (deref w self)) alias = name).
  { unfold resolve_alias. cbn [aliases set_aliases]. now rewrite getitem_setitem_eq. }
  assert (H2 : resolve_alias (set_aliases (PyDict.setitem alias name (aliases (deref w self)))
                                (deref w self)) name = name).
  { unfold resolve_alias in *. cbn [aliases set_aliases].
    destruct (String.eqb_spec alias name) as [->|Hne].
    - now rewrite getitem_setitem_eq.
    - now rewrite getitem_setitem_ne. }
  now rewrite H1, H2.
Qed.

Lemma alias_read_is_target_read_witness :
  _getitem demo_funcs 0 "twice" false true (snd (add_alias 0 "twice" "double" demo_world))
  = _getitem demo_funcs 0 "double" false true (snd (add_alias 0 "twice" "double" demo_world)).
Proof.
  apply (alias_read_is_target_read demo_funcs demo_world 0 "twice" "double" false true).
  - vm_compute. lia.
  - reflexivity.
Defined.

(** X6: after a deletion that succeeded the key is unknown: the subscript
    read raises KeyError and [get] returns its default, though the key had
    a field, and perhaps a recipe, before.  The key is neither an alias nor
    the name of a child. *)
Theorem delitem_then_read (funcs : Func -> Callable) (w : World) (self : Loc)
    (key : string) (dflt : PyVal) :
  allocated w self ->
  PyDict.contains key (fields (deref w self)) = true ->
  resolve_alias (deref w self) key = key ->
  PyDict.getitem key (containers (deref w self)) = None ->
  fst (__delitem__ self key w) = Ok tt /\
  __getitem__ funcs self key (snd (__delitem__ self key w))
  = (Raise (key_error_unknown key), snd (__delitem__ self key w)) /\
  get funcs self key dflt true false (snd (__delitem__ self key w))
  = (Ok dflt, snd (__delitem__ self key w)).
Proof.
  intros Ha Hf Hal Hc.
  destruct (delitem_run w self key Ha) as (w1 & Hc1 & Ha1 & ->).
  unfold PyDict.delitem. rewrite Hf. cbn [fst snd].
  set (w' := mkWorld _ _).
  assert (Hobj : deref w' self
                 = set_fields (PyDict.remove key (fields (deref w self)))
                     (set_fieldrecipes (PyDict.remove key (fieldrecipes (deref w self)))
                        (deref w self))).
  { unfold w'. rewrite deref_alter_eq by auto. now rewrite Hc1. }
  assert (Hk : resolve_alias (deref w' self) key = key).
  { rewrite Hobj. exact Hal. }
  assert (G : forall ud, _getitem funcs self key false ud w'
                         = (Raise (key_error_unknown key), w')).
  { intros ud.
    pose proof (getitem_unknown_branch funcs self key false ud w') as H.
    cbv zeta in H. rewrite Hk in H. apply H; rewrite Hobj; simpl; auto.
    - left. apply getitem_remove_eq.
    - apply getitem_remove_eq. }
  split; [reflexivity|]. split; [apply G|].
  unfold get. rewrite andb_false_r, G. reflexivity.
Qed.

Lemma delitem_then_read_witness :
  fst (__delitem__ 0 "double" derived_world) = Ok tt
  /\ __getitem__ demo_funcs 0 "double" (snd (__delitem__ 0 "double" derived_world))
     = (Raise (key_error_unknown "double"), snd (__delitem__ 0 "double" derived_world))
  /\ get demo_funcs 0 "double" PNone true false (snd (__delitem__ 0 "double" derived_world))
     = (Ok PNone, snd (__delitem__ 0 "double" derived_world)).
Proof.
  apply (delitem_then_read demo_funcs derived_world 0 "double" PNone);
    try reflexivity.
  vm_compute. lia.
Defined.

(** ** Enumeration *)

Lemma list_remove_NoDup x (l : list string) :
  NoDup l ->
  NoDup (list_remove x l) /\ forall y, y ∈ list_remove x l <-> y ∈ l /\ y <> x.
Proof.
  induction l as [|z l IH]; intros Hnd; simpl.
  - split; auto. intros y. split; [intros H; inversion H | intros [H _]; inversion H].
  - apply NoDup_cons in Hnd as [Hz Hnd]. destruct (IH Hnd) as [IH1 IH2].
    destruct (String.eqb_spec x z) as [->|Hne].
    + split; auto. intros y. rewrite elem_of_cons. split.
      * intros H. split; auto. intros ->. tauto.
      * intros [[->|H] Hy]; tauto.
    + split.
      * apply NoDup_cons. split; auto. rewrite IH2. tauto.
      * intros y. rewrite !elem_of_cons, IH2. split.
        -- intros [->|[H1 H2]]; split; auto.
        -- intros [[->|H] Hy]; auto.
Qed.

Lemma existsb_eqb_elem x (l : list string) :
  existsb (String.eqb x) l = true <-> x ∈ l.
Proof.
  rewrite existsb_exists. split.
  - intros (y & Hy & E). apply String.eqb_eq in E. subst. now apply list_elem_of_In.
  - intros H. exists x. split; [now apply list_elem_of_In | apply String.eqb_refl].
Qed.

Lemma drop_internals_spec ints (fk : list string) :
  NoDup fk ->
  NoDup (drop_internals ints fk) /\
  forall y, y ∈ drop_internals ints fk <-> y ∈ fk /\ y ∉ ints.
Proof.
  unfold drop_internals. revert fk.
  induction ints as [|i ints IH]; intros fk Hnd; simpl.
  - split; auto. intros y. split; [intros H; split; auto; intros H'; inversion H' | tauto].
  - destruct (list_remove_NoDup i fk Hnd) as [R1 R2].
    destruct (existsb (String.eqb i) fk) eqn:E.
    + destruct (IH _ R1) as [I1 I2]. split; auto.
      intros y. rewrite I2, R2, not_elem_of_cons. tauto.
    + destruct (IH _ Hnd) as [I1 I2]. split; auto.
      intros y. rewrite I2, not_elem_of_cons.
      assert (Hi : i ∉ fk).
      { intros H. apply existsb_eqb_elem in H. congruence. }
      split; [|tauto]. intros [H1 H2]. repeat split; auto. intros ->. tauto.
Qed.

Lemma list_set_union_spec (a b : list string) :
  NoDup (list_set_union a b) /\
  forall y, y ∈ list_set_union a b <-> y ∈ a \/ y ∈ b.
Proof.
  unfold list_set_union. split; [apply NoDup_elements|].
  intros y. rewrite elem_of_elements, elem_of_union, !elem_of_list_to_set. tauto.
Qed.

Lemma keys_of_spec (c : FieldContainer) (wg wr wi : bool) :
  wf_dict (fields c) ->
  NoDup (keys_of c wg wr wi) /\
  forall k,
    k ∈ keys_of c wg wr wi <->
    (k ∈ PyDict.keys (fields c) /\ (wi = true \/ k ∉ internals c))
    \/ (wr = true /\ k ∈ PyDict.keys (fieldrecipes c))
    \/ (wg = true /\ k ∈ PyDict.keys (containers c)).
Proof.
  intros Hwf. unfold keys_of.
  destruct (drop_internals_spec (internals c) (PyDict.keys (fields c)) Hwf) as [D1 D2].
  set (fk1 := if wi then PyDict.keys (fields c)
              else drop_internals (internals c) (PyDict.keys (fields c))).
  assert (F1 : NoDup fk1 /\
               forall k, k ∈ fk1 <-> k ∈ PyDict.keys (fields c)
                                     /\ (wi = true \/ k ∉ internals c)).
  { subst fk1. destruct wi.
    - split; auto. intros k. tauto.
    - split; auto. intros k. rewrite D2. intuition discriminate. }
  destruct F1 as [N1 M1].
  set (fk2 := if wr then list_set_union fk1 (PyDict.keys (fieldrecipes c)) else fk1).
  assert (F2 : NoDup fk2 /\
               forall k, k ∈ fk2 <-> k ∈ fk1
                                     \/ (wr = true /\ k ∈ PyDict.keys (fieldrecipes c))).
  { subst fk2. destruct wr.
    - destruct (list_set_union_spec fk1 (PyDict.keys (fieldrecipes c))) as [U1 U2].
      split; auto. intros k. rewrite U2. tauto.
    - split; auto. intros k. intuition discriminate. }
  destruct F2 as [N2 M2].
  destruct wg.
  - destruct (list_set_union_spec fk2 (PyDict.keys (containers c))) as [U1 U2].
    split; auto. intros k. rewrite U2, M2, M1. tauto.
  - split; auto. intros k. rewrite M2, M1. intuition discriminate.
Qed.

(** X7: [keys] lists a name once, and lists exactly: the names of fields,
    the internal ones only on request; the names of recipes and of child
    containers when asked for, those also when they are internal names. *)
Theorem keys_membership (w : World) (self : Loc) (wg wr wi : bool) :
  wf_dict (fields (deref w self)) ->
  exists ks,
    keys self wg wr wi w = (Ok ks, w) /\
    NoDup ks /\
    forall k,
      k ∈ ks <->
      (k ∈ PyDict.keys (fields (deref w self))
       /\ (wi = true \/ k ∉ internals (deref w self)))
      \/ (wr = true /\ k ∈ PyDict.keys (fieldrecipes (deref w self)))
      \/ (wg = true /\ k ∈ PyDict.keys (containers (deref w self))).
Proof.
  intros Hwf. exists (keys_of (deref w self) wg wr wi).
  split; [reflexivity|]. now apply keys_of_spec.
Qed.

Lemma keys_membership_witness :
  exists ks,
    keys 0 true true false uniform_world = (Ok ks, uniform_world)
    /\ "mass" ∈ ks /\ "uid" ∉ ks.
Proof.
  assert (Hwf : wf_dict (fields (deref uniform_world 0))).
  { vm_compute. apply NoDup_ListNoDup.
    repeat (constructor; [simpl; intuition discriminate|]). constructor. }
  destruct (keys_membership uniform_world 0 true true false Hwf) as (ks & Hrun & _ & Hmem).
  exists ks. split; [exact Hrun|]. split.
  - apply Hmem. left. split.
    + vm_compute. apply list_elem_of_In. simpl. auto.
    + right. vm_compute. intros H. apply list_elem_of_In in H. simpl in H.
      intuition discriminate.
  - intros H. apply Hmem in H as [[_ [H|H]] | [[_ H] | [_ H]]].
    + discriminate.
    + apply H. vm_compute. constructor.
    + vm_compute in H. inversion H.
    + vm_compute in H. inversion H.
Defined.

Lemma keys_setitem_elem {V} k (v : V) (d : dict V) k' :
  k' ∈ PyDict.keys (PyDict.setitem k v d) <-> k' ∈ PyDict.keys d \/ k' = k.
Proof.
  destruct (String.eqb_spec k k') as [<-|Hne].
  - split; [now right|]. intros _.
    apply (getitem_Some_keys k v). apply getitem_setitem_eq.
  - split.
    + intros H. left. apply keys_getitem in H as [x Hx].
      rewrite getitem_setitem_ne in Hx by auto. now apply getitem_Some_keys in Hx.
    + intros [H | ->]; [|congruence].
      apply keys_getitem in H as [x Hx].
      apply (getitem_Some_keys k' x). now rewrite getitem_setitem_ne.
Qed.



(** ** Registration *)

Lemma setitem_idem {V} k (v : V) (d : dict V) :
  PyDict.setitem k v (PyDict.setitem k v d) = PyDict.setitem k v d.
Proof.
  induction d as [|[k' v'] d IH]; simpl.
  - now rewrite String.eqb_refl.
  - destruct (String.eqb k k') eqn:E; simpl.
    + now rewrite String.eqb_refl.
    + now rewrite E, IH.
Qed.

Lemma for_each_modify (f : FieldContainer -> FieldContainer) (ls : list Loc) :
  (forall c, f (f c) = f c) ->
  forall w,
  exists w',
    for_each ls (fun l => modify l f) w = (Ok tt, w') /\
    length (heap w') = length (heap w) /\ calls w' = calls w /\
    forall l,
      (l ∈ ls -> allocated w l -> deref w' l = f (deref w l)) /\
      (l ∉ ls -> deref w' l = deref w l).
Proof.
  intros Hf. induction ls as [|a ls IH]; intros w.
  - exists w. repeat split; auto. intros H. inversion H.
  - destruct (IH (snd (modify a f w))) as (w' & Hrun & Hlen & Hcalls & Hobj).
    exists w'. split; [|split; [|split]].
    + simpl. unfold bind. cbn. exact Hrun.
    + rewrite Hlen. unfold modify. cbn [snd heap]. apply length_alter.
    + rewrite Hcalls. reflexivity.
    + intros l. split.
      * intros Hin Hal.
        destruct (decide (l ∈ ls)) as [Hl|Hl].
        -- rewrite (proj1 (Hobj l) Hl) by now apply modify_allocated.
           destruct (decide (a = l)) as [->|Hne].
           ++ now rewrite deref_modify_eq, Hf.
           ++ now rewrite deref_modify_ne.
        -- rewrite (proj2 (Hobj l) Hl).
           apply elem_of_cons in Hin as [->|Hin]; [|tauto].
           now rewrite deref_modify_eq.
      * intros Hin. apply not_elem_of_cons in Hin as [Hne Hin].
        rewrite (proj2 (Hobj l) Hin). now rewrite deref_modify_ne.
Qed.

(** X9: applying the decorator binds the name, the one given or else the
    function's own, to a derived recipe of that function in every target
    container, replacing a recipe of that name; it returns the function,
    calls nothing, and changes nothing else: no field, no other recipe, no
    other container. *)
Theorem decorator_registers (funcs : Func -> Callable) (w : World) (targets : Targets)
    (name : option string) (description : string) (units : option string) (f : Func) :
  let nm := default (__name__ (funcs f)) name in
  let r := mkFieldRecipe DERIVED nm description units (Some f) None in
  let ls := match targets with
            | TList ls => ls
            | TValues s => PyDict.values (containers (deref w s))
            end in
  exists w',
    decorator funcs targets name description units f w = (Ok f, w') /\
    length (heap w') = length (heap w) /\ calls w' = calls w /\
    forall l,
      (l ∈ ls -> allocated w l ->
       deref w' l
       = set_fieldrecipes (PyDict.setitem nm r (fieldrecipes (deref w l))) (deref w l)) /\
      (l ∉ ls -> deref w' l = deref w l).
Proof.
  intros nm r ls.
  destruct (for_each_modify
              (fun c => set_fieldrecipes (PyDict.setitem nm r (fieldrecipes c)) c) ls
              ltac:(intros c; unfold set_fieldrecipes; simpl; now rewrite setitem_idem) w)
    as (w' & Hrun & Hlen & Hcalls & Hobj).
  exists w'. split; [|auto].
  unfold decorator. fold nm. unfold bind at 1.
  assert (Hls : (match targets with
                 | TList ls0 => ret ls0
                 | TValues self => s <- read self ;; ret (PyDict.values (containers s))
                 end) w = (Ok ls, w)).
  { subst ls. destruct targets; reflexivity. }
  rewrite Hls. unfold bind at 1.
  replace (for_each ls _ w) with (for_each ls (fun l => modify l
             (fun c => set_fieldrecipes (PyDict.setitem nm r (fieldrecipes c)) c)) w).
  - rewrite Hrun. reflexivity.
  - reflexivity.
Qed.

Lemma decorator_registers_witness :
  exists w',
    decorator demo_funcs (TList [1; 3]) (Some "speed") "magnitude" None 0 merge_world
    = (Ok 0, w')
    /\ PyDict.getitem "speed" (fieldrecipes (deref w' 1))
       = Some (mkFieldRecipe DERIVED "speed" "magnitude" None (Some 0) None)
    /\ deref w' 0 = deref merge_world 0.
Proof.
  destruct (decorator_registers demo_funcs merge_world (TList [1; 3]) (Some "speed")
              "magnitude" None 0) as (w' & Hrun & _ & _ & Hobj).
  exists w'. split; [exact Hrun|]. split.
  - rewrite (proj1 (Hobj 1)).
    + reflexivity.
    + apply list_elem_of_In. simpl. auto.
    + vm_compute. lia.
  - apply (proj2 (Hobj 0)). intros H. apply list_elem_of_In in H. simpl in H.
    intuition discriminate.
Defined.

Lemma map_m_subscript_ok (d : dict Loc) (names : list string) w :
  (forall n, n ∈ names -> PyDict.contains n d = true) ->
  exists ls,
    map_m (subscript d) names w = (Ok ls, w) /\
    Forall2 (fun n l => PyDict.getitem n d = Some l) names ls.
Proof.
  induction names as [|n names IH]; intros H.
  - exists []. split; [reflexivity | constructor].
  - destruct (proj1 (contains_true n d) (H n ltac:(constructor))) as [l Hl].
    destruct IH as (ls & Hrun & Hall); [intros m Hm; apply H; now constructor|].
    exists (l :: ls). split; [|now constructor].
    simpl. unfold bind at 1. unfold subscript at 1. rewrite Hl. unfold ret at 1.
    unfold bind at 1. now rewrite Hrun.
Qed.

Lemma map_m_subscript_missing (d : dict Loc) (pre post : list string) n w :
  (forall m, m ∈ pre -> PyDict.contains m d = true) ->
  PyDict.contains n d = false ->
  map_m (subscript d) (pre ++ n :: post) w = (Raise (mkExn KeyError n), w).
Proof.
  intros Hpre Hn. apply contains_false in Hn.
  induction pre as [|m pre IH]; simpl.
  - unfold bind, subscript. now rewrite Hn.
  - destruct (proj1 (contains_true m d) (Hpre m ltac:(constructor))) as [l Hl].
    unfold bind at 1. unfold subscript at 1. rewrite Hl. unfold ret at 1.
    unfold bind at 1. rewrite IH; auto. intros m' Hm'. apply Hpre. now constructor.
Qed.

(** X10: [register_field] with a list of names changes nothing; when every
    name is a child container it yields these children, in the order of
    the names; otherwise it raises KeyError for the first name that is no
    child. *)
Theorem register_field_list (w : World) (self : Loc) (names : list string) :
  let cs := containers (deref w self) in
  ((forall n, n ∈ names -> PyDict.contains n cs = true) ->
   exists ls,
     register_field self (CList names) w = (Ok (TList ls), w) /\
     Forall2 (fun n l => PyDict.getitem n cs = Some l) names ls)
  /\
  (forall pre n post,
      names = pre ++ n :: post ->
      (forall m, m ∈ pre -> PyDict.contains m cs = true) ->
      PyDict.contains n cs = false ->
      register_field self (CList names) w = (Raise (mkExn KeyError n), w)).
Proof.
  intros cs. split.
  - intros H. destruct (map_m_subscript_ok cs names w H) as (ls & Hrun & Hall).
    exists ls. split; auto.
    unfold register_field, bind, read. cbn beta iota. fold cs. now rewrite Hrun.
  - intros pre n post -> Hpre Hn.
    unfold register_field, bind, read. cbn beta iota. fold cs.
    now rewrite (map_m_subscript_missing cs pre post n w Hpre Hn).
Qed.

Lemma register_field_list_witness :
  (exists ls, register_field 0 (CList ["gas"]) merge_world = (Ok (TList ls), merge_world))
  /\ register_field 0 (CList ["gas"; "stars"; "dm"]) merge_world
     = (Raise (mkExn KeyError "stars"), merge_world).
Proof.
  split.
  - destruct (proj1 (register_field_list merge_world 0 ["gas"])) as (ls & Hrun & _).
    + intros n Hn. apply list_elem_of_singleton in Hn. subst. reflexivity.
    + exists ls. exact Hrun.
  - apply (proj2 (register_field_list merge_world 0 ["gas"; "stars"; "dm"])
             ["gas"] "stars" ["dm"]).
    + reflexivity.
    + intros m Hm. apply list_elem_of_singleton in Hm. subst. reflexivity.
    + reflexivity.
Defined.

(** X11: a function registered on the container itself under a name that
    is no alias, no child and no field is the one the next read of that
    name runs, on this container with the keyword arguments its signature
    selects; what it returns is returned and stored as a field. *)
Theorem register_then_read (funcs : Func -> Callable) (w : World) (self : Loc)
    (nm description : string) (units : option string) (f : Func) :
  allocated w self ->
  resolve_alias (deref w self) nm = nm ->
  PyDict.getitem nm (containers (deref w self)) = None ->
  PyDict.getitem nm (fields (deref w self)) = None ->
  exists w1,
    (t <- register_field self CNone ;; decorator funcs t (Some nm) description units f) w
    = (Ok f, w1) /\
    __getitem__ funcs self nm w1 =
      match call (funcs f) self
              (recipe_kwargs (funcs f) (fieldrecipes_kwargs (deref w self)))
              (logged self nm w1) with
      | (Ok field, w2) => (Ok field, store_field self nm field w2)
      | (Raise e, w2) => (Raise e, w2)
      end.
Proof.
  intros Ha Hal Hc Hf.
  destruct (decorator_registers funcs w (TList [self]) (Some nm) description units f)
    as (w1 & Hrun & _ & _ & Hobj).
  cbv zeta in Hobj. cbn [default] in Hobj.
  exists w1. split.
  - unfold bind at 1. unfold register_field, bind, read, ret. cbn beta iota. exact Hrun.
  - pose proof (proj1 (Hobj self) ltac:(constructor) Ha) as Hself.
    unfold __getitem__.
    rewrite (getitem_recipe_branch funcs self nm false true w1
               (mkFieldRecipe DERIVED nm description units (Some f) None) f);
      rewrite ?Hself; cbn [aliases containers fields fieldrecipes fieldrecipes_kwargs
                             set_fieldrecipes func];
      unfold resolve_alias in *; cbn [aliases set_fieldrecipes]; rewrite ?Hal; auto.
    apply getitem_setitem_eq.
Qed.

Lemma register_then_read_witness :
  exists w1,
    (t <- register_field 0 CNone ;; decorator demo_funcs t (Some "twice") "2x" None 0)
      demo_world = (Ok 0, w1)
    /\ fst (__getitem__ demo_funcs 0 "twice" w1) = Ok (PArray [3] [2; 4; 6]%Z).
Proof.
  destruct (register_then_read demo_funcs demo_world 0 "twice" "2x" None 0)
    as (w1 & Hrun & Hread); try reflexivity.
  { vm_compute. lia. }
  exists w1. split; [exact Hrun|].
  rewrite Hread. injection Hrun as <-. reflexivity.
Defined.

(** X12: registering a recipe does not touch the fields: a name that has a
    stored field keeps reading that value after a recipe was registered or
    replaced under it, and the new function is not called. *)
Theorem register_keeps_stored_value (funcs : Func -> Callable) (w : World) (self : Loc)
    (nm description : string) (units : option string) (f : Func) (v : PyVal) :
  allocated w self ->
  resolve_alias (deref w self) nm = nm ->
  PyDict.getitem nm (containers (deref w self)) = None ->
  PyDict.getitem nm (fields (deref w self)) = Some v ->
  exists w1,
    decorator funcs (TList [self]) (Some nm) description units f w = (Ok f, w1) /\
    __getitem__ funcs self nm w1 = (Ok v, w1).
Proof.
  intros Ha Hal Hc Hf.
  destruct (decorator_registers funcs w (TList [self]) (Some nm) description units f)
    as (w1 & Hrun & _ & _ & Hobj).
  cbv zeta in Hobj. cbn [default] in Hobj.
  exists w1. split; [exact Hrun|].
  pose proof (proj1 (Hobj self) ltac:(constructor) Ha) as Hself.
  unfold __getitem__. apply getitem_field_branch; rewrite Hself;
    unfold resolve_alias in *; cbn [aliases containers fields set_fieldrecipes];
    now rewrite Hal.
Qed.

Lemma register_keeps_stored_value_witness :
  exists w1,
    decorator demo_funcs (TList [0]) (Some "double") "again" None 2 derived_world
    = (Ok 2, w1)
    /\ __getitem__ demo_funcs 0 "double" w1 = (Ok (PArray [3] [2; 4; 6]%Z), w1).
Proof.
  apply (register_keeps_stored_value demo_funcs derived_world 0 "double" "again" None 2);
    try reflexivity.
  vm_compute. lia.
Defined.

(** ** Construction *)

Lemma values_setitem {V} k (v : V) (d : dict V) x :
  x ∈ PyDict.values (PyDict.setitem k v d) -> x ∈ PyDict.values d \/ x = v.
Proof.
  induction d as [|[k' v'] d IH]; simpl.
  - intros H. apply list_elem_of_singleton in H. now right.
  - destruct (String.eqb k k'); simpl; rewrite !elem_of_cons.
    + intros [->|H]; auto.
    + intros [->|H]; auto. apply IH in H as [H| ->]; auto.
Qed.

Lemma values_setitem_NoDup {V} k (v : V) (d : dict V) :
  NoDup (PyDict.values d) -> v ∉ PyDict.values d ->
  NoDup (PyDict.values (PyDict.setitem k v d)).
Proof.
  induction d as [|[k' v'] d IH]; simpl; intros Hnd Hv.
  - apply NoDup_singleton.
  - apply NoDup_cons in Hnd as [Hv' Hnd]. apply not_elem_of_cons in Hv as [Hne Hv].
    destruct (String.eqb k k'); simpl; apply NoDup_cons; split; auto.
    intros H. apply values_setitem in H as [H| ->]; tauto.
Qed.

Lemma init_children_spec (n : Loc) (fkws : dict PyVal) (base : FieldContainer)
    (names : list string) :
  forall w1 Cs,
    n < length (heap w1) ->
    deref w1 n = set_containers Cs base ->
    wf_dict Cs -> NoDup (PyDict.values Cs) ->
    (forall l, l ∈ PyDict.values Cs ->
               n < l < length (heap w1) /\ deref w1 l = fresh_container fkws) ->
    exists w' Cs',
      for_each names (fun k =>
          child <- alloc (fresh_container fkws) ;;
          modify n (fun c => set_containers (PyDict.setitem k child (containers c)) c)) w1
      = (Ok tt, w') /\
      deref w' n = set_containers Cs' base /\
      wf_dict Cs' /\ NoDup (PyDict.values Cs') /\
      (forall l, l ∈ PyDict.values Cs' ->
                 n < l < length (heap w') /\ deref w' l = fresh_container fkws) /\
      (forall k, k ∈ PyDict.keys Cs' <-> k ∈ PyDict.keys Cs \/ k ∈ names) /\
      (forall l, l ∈ PyDict.values Cs' -> l ∈ PyDict.values Cs \/ length (heap w1) <= l).
Proof.
  induction names as [|k names IH]; intros w1 Cs Hn Hobj Hwf Hnd Hch.
  - exists w1, Cs. repeat split; auto.
    + now apply Hch. + now apply Hch. + now apply Hch.
    + intros [H|H]; auto. inversion H.
  - set (w2 := snd (modify n (fun c => set_containers
                      (PyDict.setitem k (length (heap w1)) (containers c)) c)
                    (snd (alloc (fresh_container fkws) w1)))).
    assert (Hlen2 : length (heap w2) = S (length (heap w1))).
    { unfold w2, modify, alloc. cbn [snd heap]. rewrite length_alter, length_app.
      simpl. lia. }
    assert (Hobj2 : deref w2 n
                    = set_containers (PyDict.setitem k (length (heap w1)) Cs) base).
    { unfold w2. rewrite deref_modify_eq.
      - unfold alloc. cbn [snd]. rewrite deref_app_old by exact Hn.
        rewrite Hobj. reflexivity.
      - unfold allocated, alloc. cbn [snd heap]. rewrite length_app. lia. }
    assert (Hold : forall l, l < length (heap w1) -> l <> n -> deref w2 l = deref w1 l).
    { intros l Hl Hne. unfold w2. rewrite deref_modify_ne by auto.
      unfold alloc. cbn [snd]. now apply deref_app_old. }
    assert (Hnew : deref w2 (length (heap w1)) = fresh_container fkws).
    { unfold w2. rewrite deref_modify_ne by lia.
      unfold alloc. cbn [snd]. apply deref_app_new. }
    destruct (IH w2 (PyDict.setitem k (length (heap w1)) Cs)) as (w' & Cs' & Hrun & R);
      auto; try lia.
    + now apply wf_dict_setitem.
    + apply values_setitem_NoDup; auto. intros H. apply Hch in H. lia.
    + intros l Hl. apply values_setitem in Hl as [Hl| ->].
      * destruct (Hch l Hl) as [H1 H2]. split; [lia|]. rewrite Hold; auto; lia.
      * split; [lia | exact Hnew].
    + destruct R as (R1 & R2 & R3 & R4 & R5 & R6).
      exists w', Cs'. split; [|repeat split; auto].
      * simpl. unfold bind at 1. unfold bind at 1. unfold alloc at 1. cbn beta iota.
        unfold modify at 1. cbn beta iota. exact Hrun.
      * now apply R4. * now apply R4. * now apply R4.
      * intros H. apply R5 in H as [H|H].
        -- apply keys_setitem_elem in H as [H| ->]; auto. right. constructor.
        -- right. now constructor.
      * intros [H|H]; apply R5.
        -- left. apply keys_setitem_elem. now left.
        -- apply elem_of_cons in H as [->|H]; auto.
           left. apply keys_setitem_elem. now right.
      * intros l Hl. apply R6 in Hl as [Hl|Hl]; [|right; lia].
        apply values_setitem in Hl as [Hl| ->]; auto.
Qed.

Lemma init_spec init_fields init_name kw cs als w :
  exists w' Cs,
    FieldContainer__init__ init_fields init_name kw cs als w = (Ok (length (heap w)), w') /\
    frame w w' /\
    deref w' (length (heap w))
    = set_containers Cs
        (mkFieldContainer (default [] als) init_name (PyDict.update [] init_fields) []
           (default [] kw) [] ["uid"]) /\
    wf_dict Cs /\ NoDup (PyDict.values Cs) /\
    (forall k, k ∈ PyDict.keys Cs <-> k ∈ default [] cs) /\
    (forall l, l ∈ PyDict.values Cs ->
               length (heap w) < l < length (heap w') /\
               deref w' l = fresh_container (default [] kw)).
Proof.
  destruct (init_frame init_fields init_name kw cs als w) as (w' & Hrun & Hfr & Hal).
  set (base := mkFieldContainer (default [] als) init_name (PyDict.update [] init_fields) []
                 (default [] kw) [] ["uid"]).
  destruct (init_children_spec (length (heap w)) (default [] kw) base (default [] cs)
              (snd (alloc base w)) []) as (w'' & Cs & Hloop & R1 & R2 & R3 & R4 & R5 & _).
  - unfold alloc. cbn [snd heap]. rewrite length_app. simpl. lia.
  - unfold alloc. cbn [snd]. now rewrite deref_app_new.
  - constructor.
  - constructor.
  - intros l Hl. inversion Hl.
  - assert (Hrun' : FieldContainer__init__ init_fields init_name kw cs als w
                    = (Ok (length (heap w)), w'')).
    { unfold FieldContainer__init__. unfold bind at 1. unfold alloc at 1. cbn beta iota.
      fold base. unfold bind at 1.
      change (mkWorld (heap w ++ [base]) (calls w)) with (snd (alloc base w)).
      rewrite Hloop. reflexivity. }
    assert (w'' = w') by congruence. subst w''.
    exists w', Cs. repeat split; auto; try apply Hfr.
    + intros H. apply R5 in H as [H|H]; auto. inversion H.
    + intros H. apply R5. now right.
    + now apply R4. + now apply R4. + now apply R4.
Qed.

(** X13: the constructor returns a new object and leaves those that exist
    as they were.  The new container has the aliases and the recipe
    keywords it was given, or empty ones, the fields it was given, no
    recipe, and one child for each name of [containers]: a new, empty
    container with the same recipe keywords, different names having
    different children. *)
Theorem init_builds_fresh_tree (init_fields : dict PyVal) (init_name : PyVal)
    (kw : option (dict PyVal)) (cs : option (list string)) (als : option (dict string))
    (w : World) :
  exists w',
    FieldContainer__init__ init_fields init_name kw cs als w = (Ok (length (heap w)), w') /\
    frame w w' /\
    aliases (deref w' (length (heap w))) = default [] als /\
    name (deref w' (length (heap w))) = init_name /\
    fields (deref w' (length (heap w))) = PyDict.update [] init_fields /\
    fieldrecipes (deref w' (length (heap w))) = [] /\
    fieldrecipes_kwargs (deref w' (length (heap w))) = default [] kw /\
    (forall k, k ∈ PyDict.keys (containers (deref w' (length (heap w))))
               <-> k ∈ default [] cs) /\
    NoDup (PyDict.values (containers (deref w' (length (heap w))))) /\
    (forall l, l ∈ PyDict.values (containers (deref w' (length (heap w)))) ->
               ~ allocated w l /\ l <> length (heap w) /\ allocated w' l /\
               deref w' l = fresh_container (default [] kw)).
Proof.
  destruct (init_spec init_fields init_name kw cs als w)
    as (w' & Cs & Hrun & Hfr & Hobj & Hwf & Hnd & Hkeys & Hch).
  exists w'. rewrite Hobj. cbn [aliases name fields fieldrecipes fieldrecipes_kwargs
                                  containers set_containers].
  repeat split; auto; try apply Hfr; try apply Hkeys.
  - unfold allocated. apply Hch in H. lia.
  - apply Hch in H. lia.
  - unfold allocated. apply Hch in H. lia.
  - now apply Hch.
Qed.

(** X14: two containers built one after the other by the constructor
    share no object, in either order: they are such as the merge
    properties take. *)
Theorem constructed_trees_separated (fx fy : dict PyVal) (nx ny : PyVal)
    (kwx kwy : option (dict PyVal)) (csx csy : option (list string))
    (alx aly : option (dict string)) (w : World) :
  exists x y w1 w2,
    FieldContainer__init__ fx nx kwx csx alx w = (Ok x, w1) /\
    FieldContainer__init__ fy ny kwy csy aly w1 = (Ok y, w2) /\
    separated w2 x y /\ separated w2 y x.
Proof.
  destruct (init_spec fx nx kwx csx alx w)
    as (w1 & Cx & Hrx & Hfx & Hox & Hwx & Hnx & _ & Hcx).
  destruct (init_spec fy ny kwy csy aly w1)
    as (w2 & Cy & Hry & Hfy & Hoy & Hwy & Hny & _ & Hcy).
  exists (length (heap w)), (length (heap w1)), w1, w2.
  split; [exact Hrx|]. split; [exact Hry|].
  destruct Hfx as (Lx & _ & _). destruct Hfy as (Ly & _ & Fy).
  assert (Hx1 : length (heap w) < length (heap w1)).
  { destruct (init_frame fx nx kwx csx alx w) as (w1' & H1 & _ & H2).
    assert (w1' = w1) by congruence. subst. exact H2. }
  assert (Hy2 : length (heap w1) < length (heap w2)).
  { destruct (init_frame fy ny kwy csy aly w1) as (w2' & H1 & _ & H2).
    assert (w2' = w2) by congruence. subst. exact H2. }
  assert (Hox2 : deref w2 (length (heap w)) = deref w1 (length (heap w)))
    by (apply Fy; exact Hx1).
  assert (Hcx2 : containers (deref w2 (length (heap w))) = Cx)
    by (rewrite Hox2, Hox; reflexivity).
  assert (Hcy2 : containers (deref w2 (length (heap w1))) = Cy)
    by (rewrite Hoy; reflexivity).
  assert (Vx : forall l, l ∈ PyDict.values Cx -> length (heap w) < l < length (heap w1))
    by (intros l Hl; now apply Hcx).
  assert (Vy : forall l, l ∈ PyDict.values Cy -> length (heap w1) < l < length (heap w2))
    by (intros l Hl; now apply Hcy).
  split.
  - apply separated_intro; rewrite ?Hcx2, ?Hcy2; unfold allocated; auto; try lia.
    + intros l Hl. apply Vx in Hl as Hl'. repeat split; try lia.
      intros H. apply Vy in H. lia.
    + intros l Hl. apply Vy in Hl. repeat split; lia.
  - apply separated_intro; rewrite ?Hcx2, ?Hcy2; unfold allocated; auto; try lia.
    + intros l Hl. apply Vy in Hl as Hl'. repeat split; try lia.
      intros H. apply Vx in H. lia.
    + intros l Hl. apply Vx in Hl. repeat split; lia.
Qed.

(** X15: [new_container(key, ...)] binds the key to a new object, named
    after the key and sharing the recipe keywords of its parent, and reads
    of the key return it; the other children, the fields, recipes and
    aliases of the parent and all other objects stay.  The keywords must
    not name [name] or [fieldrecipes_kwargs], which the call passes
    itself; the last part needs a key that is no alias. *)
Theorem new_container_child (funcs : Func -> Callable) (w : World) (self : Loc)
    (key : string) (kwargs : InitKwargs) :
  allocated w self ->
  PyDict.contains "name" (kw_fields kwargs) = false ->
  PyDict.contains "fieldrecipes_kwargs" (kw_fields kwargs) = false ->
  exists w',
    new_container self key kwargs w = (Ok tt, w') /\
    deref w' self
    = set_containers (PyDict.setitem key (length (heap w)) (containers (deref w self)))
        (deref w self) /\
    name (deref w' (length (heap w))) = PStr key /\
    fieldrecipes_kwargs (deref w' (length (heap w))) = fieldrecipes_kwargs (deref w self) /\
    fields (deref w' (length (heap w))) = PyDict.update [] (kw_fields kwargs) /\
    fieldrecipes (deref w' (length (heap w))) = [] /\
    (forall l, allocated w l -> l <> self -> deref w' l = deref w l) /\
    (resolve_alias (deref w self) key = key ->
     __getitem__ funcs self key w' = (Ok (PContainer (length (heap w))), w')).
Proof.
  intros Ha Hn1 Hn2.
  destruct (init_spec (kw_fields kwargs) (PStr key)
              (Some (fieldrecipes_kwargs (deref w self)))
              (kw_containers kwargs) (kw_aliases kwargs) w)
    as (w1 & Cs & Hrun & Hfr & Hobj & _ & _ & _ & _).
  destruct Hfr as (Hlen & _ & Hfr).
  assert (Hn : length (heap w) < length (heap w1)).
  { destruct (init_frame (kw_fields kwargs) (PStr key)
                (Some (fieldrecipes_kwargs (deref w self)))
                (kw_containers kwargs) (kw_aliases kwargs) w) as (w1' & H1 & _ & H2).
    assert (w1' = w1) by congruence. subst. exact H2. }
  assert (Ha1 : allocated w1 self) by (unfold allocated in *; lia).
  set (w' := snd (modify self (fun c => set_containers
                    (PyDict.setitem key (length (heap w)) (containers c)) c) w1)).
  assert (Hself : deref w' self
                  = set_containers (PyDict.setitem key (length (heap w))
                                      (containers (deref w self))) (deref w self)).
  { unfold w'. rewrite deref_modify_eq by auto. now rewrite Hfr. }
  assert (Hchild : deref w' (length (heap w)) = deref w1 (length (heap w))).
  { unfold w'. apply deref_modify_ne. unfold allocated in Ha. lia. }
  exists w'. split; [|split; [exact Hself|]].
  - unfold new_container, bind, read. cbn beta iota. rewrite Hn1, Hn2. cbn [orb].
    rewrite Hrun. reflexivity.
  - rewrite Hchild, Hobj. cbn [name fieldrecipes_kwargs fields fieldrecipes set_containers
                                 default].
    repeat split.
    + intros l Hl Hne. unfold w'. rewrite deref_modify_ne by auto. now apply Hfr.
    + intros Hal. unfold __getitem__. apply getitem_container_branch.
      rewrite Hself. unfold resolve_alias in *. cbn [aliases containers set_containers].
      rewrite Hal. apply getitem_setitem_eq.
Qed.

Lemma new_container_child_witness :
  exists w',
    new_container 0 "gas" no_kwargs demo_world = (Ok tt, w')
    /\ name (deref w' 1) = PStr "gas"
    /\ __getitem__ demo_funcs 0 "gas" w' = (Ok (PContainer 1), w').
Proof.
  destruct (new_container_child demo_funcs demo_world 0 "gas" no_kwargs)
    as (w' & Hrun & _ & Hname & _ & _ & _ & _ & Hread); try reflexivity.
  { vm_compute. lia. }
  exists w'. split; [exact Hrun|]. split; [exact Hname|].
  apply Hread. reflexivity.
Defined.

(** ** Merging twice *)

Lemma setitem_same {V} k (v : V) (d : dict V) :
  PyDict.getitem k d = Some v -> PyDict.setitem k v d = d.
Proof.
  induction d as [|[k' v'] d IH]; simpl; [discriminate|].
  destruct (String.eqb_spec k k') as [->|Hne].
  - now intros [= ->].
  - intros H. now rewrite IH.
Qed.

Lemma getitem_of_elem {V} k (v : V) (o : dict V) :
  wf_dict o -> (k, v) ∈ o -> PyDict.getitem k o = Some v.
Proof.
  unfold wf_dict. induction o as [|[k' v'] o IH]; simpl; intros Hnd Hin.
  - inversion Hin.
  - apply NoDup_cons in Hnd as [Hk Hnd].
    apply elem_of_cons in Hin as [[= -> ->]|Hin].
    + now rewrite String.eqb_refl.
    + destruct (String.eqb_spec k k') as [->|Hne]; auto.
      exfalso. apply Hk. apply (list_elem_of_fmap_2 fst) in Hin. exact Hin.
Qed.

Lemma update_idem {V} (d o : dict V) :
  wf_dict o -> PyDict.update (PyDict.update d o) o = PyDict.update d o.
Proof.
  intros Hwf.
  assert (G : forall o', (forall k v, (k, v) ∈ o' -> (k, v) ∈ o) ->
                         PyDict.update (PyDict.update d o) o' = PyDict.update d o).
  { induction o' as [|[k v] o' IH]; intros Hsub; auto.
    rewrite update_cons. rewrite setitem_same.
    - apply IH. intros k' v' H. apply Hsub. now constructor.
    - rewrite getitem_update by auto.
      now rewrite (getitem_of_elem k v o Hwf (Hsub k v ltac:(constructor))). }
  now apply G.
Qed.

Lemma merged_idem (tgt src : FieldContainer) :
  wf_dict (fields src) -> wf_dict (fieldrecipes src) ->
  merged (merged tgt src) src = merged tgt src.
Proof.
  intros H1 H2. unfold merged. cbn [fields fieldrecipes set_fields set_fieldrecipes].
  unfold set_fieldrecipes, set_fields. cbn.
  now rewrite !update_idem.
Qed.

Lemma child_or_fresh_wf w self k :
  heap_wf w ->
  wf_dict (fields (child_or_fresh w self k)) /\ wf_dict (fieldrecipes (child_or_fresh w self k)).
Proof.
  intros H. unfold child_or_fresh.
  destruct (PyDict.getitem k (containers (deref w self))); [apply H|].
  split; constructor.
Qed.

(** X16: merging the same argument a second time, with or without
    [overwrite], changes no object: no entry moves again, nothing is
    created, and [self] keeps the children it has.  The two trees share no
    object and no dictionary lists a key twice. *)
Theorem merge_twice_changes_nothing (w : World) (self other : Loc) (ow : bool) :
  separated w self other -> heap_wf w ->
  exists w' w'',
    merge self (PContainer other) ow w = (Ok tt, w') /\
    merge self (PContainer other) ow w' = (Ok tt, w'') /\
    length (heap w'') = length (heap w') /\
    (forall l, l <> self -> deref w'' l = deref w' l) /\
    deref w'' self = set_containers (containers (deref w'' self)) (deref w' self) /\
    (forall k, PyDict.getitem k (containers (deref w'' self))
               = PyDict.getitem k (containers (deref w' self))).
Proof.
  intros Hsep Hwf.
  destruct (merge_run ow self other w Hsep) as (w' & Hrun1 & P1).
  destruct (merge_run ow self other w' (mp_sep _ _ _ _ _ _ P1)) as (w'' & Hrun2 & P2).
  pose proof (separated_facts _ _ _ (mp_sep _ _ _ _ _ _ P1)) as (Hne & Hns & Hno & Hvs & Hvo).
  destruct P1 as [S1 L1 C1 O1 Self1 Kept1 New1 Child1 Frame1].
  destruct P2 as [S2 L2 C2 O2 Self2 Kept2 New2 Child2 Frame2].
  rewrite O1 in *.
  (* every name of [other] is a child of [self] after the first merge *)
  assert (Hhas : forall k, k ∈ PyDict.keys (containers (deref w other)) ->
                   exists sk, PyDict.getitem k (containers (deref w' self)) = Some sk).
  { intros k Hk. destruct (Child1 k Hk) as (sk & ok & _ & Hsk & _). eauto. }
  assert (Hsame : forall k, PyDict.getitem k (containers (deref w'' self))
                            = PyDict.getitem k (containers (deref w' self))).
  { intros k.
    destruct (PyDict.getitem k (containers (deref w' self))) as [l|] eqn:E.
    - now apply Kept2.
    - destruct (PyDict.getitem k (containers (deref w'' self))) as [l|] eqn:E2; auto.
      apply New2 in E2 as [E2 | (_ & Hin & _)]; [congruence|].
      destruct (Hhas k Hin) as [sk Hsk]. congruence. }
  (* the lengths agree: an object of [w''] that is new would be a child *)
  exists w', w''. split; [exact Hrun1|]. split; [exact Hrun2|].
  assert (Hobj : forall l, l <> self -> allocated w' l -> deref w'' l = deref w' l).
  { intros l Hl Hal.
    destruct (decide (Exists (fun k => merge_target ow w' self other k = Some l)
                        (PyDict.keys (containers (deref w other))))) as [Hex|Hex].
    - apply Exists_exists in Hex as (k & Hk & Ht).
      destruct (Child1 k Hk) as (sk1 & ok1 & Hok1 & Hsk1 & _ & Hc1).
      destruct (Child2 k Hk) as (sk2 & ok2 & Hok2 & Hsk2 & _ & Hc2).
      rewrite O1 in Hok2.
      assert (ok2 = ok1) by congruence. subst ok2.
      assert (sk2 = sk1) by (rewrite Hsame in Hsk2; congruence). subst sk2.
      assert (Hcf : child_or_fresh w' self k = deref w' sk1)
        by (unfold child_or_fresh; now rewrite Hsk1).
      rewrite Hcf in Hc2. unfold merge_target in Ht.
      destruct ow.
      + assert (l = sk1) by congruence. subst l.
        destruct Hc1 as [Ht1 Hs1]. destruct Hc2 as [Ht2 _].
        rewrite Ht2, Hs1, Ht1. apply merged_idem; apply Hwf.
      + rewrite O1 in Ht. assert (l = ok1) by congruence. subst l.
        destruct Hc1 as [Ht1 Hs1]. destruct Hc2 as [Ht2 _].
        rewrite Ht2, Hs1, Ht1. apply merged_idem; now apply child_or_fresh_wf.
    - apply Frame2; auto. intros k Hk Ht. apply Hex. apply Exists_exists. eauto. }
  assert (Hlen : length (heap w'') = length (heap w')).
  { apply Nat.le_antisymm; [|exact L2].
    destruct (le_lt_dec (length (heap w'')) (length (heap w'))) as [H|H]; auto.
    exfalso.
    (* no step of the second merge allocates; count through the children *)
    clear - Hrun2 Hhas S1 O1 H.
    unfold merge, bind, read in Hrun2. cbn beta iota in Hrun2. rewrite O1 in Hrun2.
    assert (G : forall ks w0 w1,
               (forall k, k ∈ ks ->
                          exists sk, PyDict.getitem k (containers (deref w0 self)) = Some sk) ->
               separated w0 self other ->
               (forall k, k ∈ ks -> k ∈ PyDict.keys (containers (deref w0 other))) ->
               for_each ks (merge_step self other ow) w0 = (Ok tt, w1) ->
               length (heap w1) = length (heap w0)).
    { induction ks as [|k ks IH]; intros w0 w1 Hall Hs Hks; simpl.
      - now intros [= <-].
      - destruct (Hall k ltac:(constructor)) as [sk Hsk].
        destruct (keys_getitem k (containers (deref w0 other)) (Hks k ltac:(constructor)))
          as [ok Hok].
        pose proof (separated_facts _ _ _ Hs) as (Hne0 & _).
        destruct (merge_step_run self other ow k w0 ok (sep_self _ _ _ Hs)
                    (sep_other _ _ _ Hs) Hne0 Hok) as (sk' & _ & _ & Hstep).
        rewrite (ensure_child_present self k w0 sk Hsk) in Hstep.
        unfold bind. rewrite Hstep. intros Hrest.
        set (wm := copy_into _ _ w0) in *.
        assert (Hc : forall l, containers (deref wm l) = containers (deref w0 l))
          by (intros l; apply copy_into_containers).
        assert (Hl : length (heap wm) = length (heap w0))
          by (unfold wm; apply copy_into_length).
        rewrite (IH wm w1); auto.
        + intros k' Hk'. rewrite Hc. apply Hall. now constructor.
        + apply (separated_same_children w0); auto. lia.
        + intros k' Hk'. rewrite Hc. apply Hks. now constructor. }
    rewrite (G _ _ _ Hhas S1 ltac:(intros k Hk; now rewrite O1) Hrun2) in H. lia. }
  split; [exact Hlen|]. split; [|split; [exact Self2 | exact Hsame]].
  intros l Hl.
  destruct (le_lt_dec (length (heap w')) l) as [Hge|Hlt].
  - unfold deref. rewrite !(proj2 (lookup_ge_None _ _)); auto. lia.
  - now apply Hobj.
Qed.

Lemma merge_twice_changes_nothing_witness :
  exists w' w'',
    merge 2 (PContainer 0) true merge_world = (Ok tt, w')
    /\ merge 2 (PContainer 0) true w' = (Ok tt, w'')
    /\ deref w'' 3 = deref w' 3.
Proof.
  destruct (merge_twice_changes_nothing merge_world 2 0 true separated_merge_world)
    as (w' & w'' & H1 & H2 & _ & Hobj & _).
  - intros l. unfold deref.
    destruct l as [|[|[|[|l]]]];
      (split; vm_compute; apply NoDup_ListNoDup;
       repeat (constructor; [simpl; intuition discriminate|]); constructor).
  - exists w', w''. split; [exact H1|]. split; [exact H2|]. apply Hobj. discriminate.
Defined.

(** ** The dataframe projection *)

Example dataframe_of_columns :
  get_dataframe 5 demo_funcs 0 (Some ["vel0"; "mass"; "vel2"]) table_world
  = Some (Ok [("vel0", PArray [2] [1; 4]%Z); ("mass", PArray [2] [7; 8]%Z);
              ("vel2", PArray [2] [3; 6]%Z)], table_world)
  /\ get_dataframe 5 demo_funcs 0 (Some ["vel"]) table_world
     = Some (Ok [("vel0", PArray [2] [1; 4]%Z); ("vel1", PArray [2] [2; 5]%Z);
                 ("vel2", PArray [2] [3; 6]%Z)], table_world)
  /\ get_dataframe 5 demo_funcs 0 (Some ["vel5"]) table_world
     = Some (Raise (mkExn ValueError "Second dimensional index 5 not defined for vel"),
             table_world)
  /\ get_dataframe 5 demo_funcs 0 (Some ["mass1"]) table_world
     = Some (Raise (mkExn ValueError "No second dimensional index for mass"), table_world)
  /\ get_dataframe 5 demo_funcs 0 (Some ["rho"]) table_world
     = Some (Raise (mkExn ValueError "Field 'rho' not found"), table_world)
  /\ get_dataframe 50 demo_funcs 0 (Some ["12"]) table_world = None.
Proof. repeat split; vm_compute; reflexivity. Qed.

Lemma drop_string_all_digits n s :
  all_digits s = true -> all_digits (drop_string n s) = true.
Proof.
  revert s. induction n as [|n IH]; intros s H; [destruct s; exact H|].
  destruct s as [|c s]; auto. simpl in *.
  apply andb_true_iff in H as [_ H]. auto.
Qed.

Lemma drop_string_short n s :
  n < String.length s -> exists c s', drop_string n s = String c s'.
Proof.
  revert s. induction n as [|n IH]; intros s H; destruct s as [|c s]; simpl in *;
    try lia; eauto.
  apply IH. lia.
Qed.

Lemma isnumeric_all_digits s : isnumeric s = true -> all_digits s = true.
Proof. destruct s; [discriminate | auto]. Qed.

Lemma slice_from_neg_numeric k i :
  isnumeric k = true -> (i < 0)%Z -> isnumeric (slice_from k i) = true.
Proof.
  intros Hk Hi. unfold slice_from.
  assert (Hlen : 0 < String.length k) by (destruct k; [discriminate | simpl; lia]).
  replace (i <? 0)%Z with true by (symmetry; now apply Z.ltb_lt).
  destruct (drop_string_short
              (Z.to_nat (Z.max 0 (Z.of_nat (String.length k) + i))) k) as (c & s' & E);
    [lia|].
  pose proof (drop_string_all_digits
                (Z.to_nat (Z.max 0 (Z.of_nat (String.length k) + i))) k
                (isnumeric_all_digits k Hk)) as Hd.
  rewrite E in *. exact Hd.
Qed.

Lemma scan_suffix_hangs k :
  isnumeric k = true ->
  forall fuel i, (i < 0)%Z -> scan_suffix fuel k i = None.
Proof.
  intros Hk. induction fuel as [|fuel IH]; intros i Hi; auto.
  simpl. rewrite slice_from_neg_numeric by auto. apply IH. lia.
Qed.

(** X17: a requested name made of digits only that [keys()] does not list
    hangs [get_dataframe]: the scan for the trailing index steps back past
    the start of the name, where the slice stays the whole name, and never
    ends, whatever the number of steps allowed. *)
Theorem get_dataframe_digits_hang (fuel : nat) (funcs : Func -> Callable) (self : Loc)
    (k : string) (rest : list string) (w : World) :
  isnumeric k = true ->
  existsb (String.eqb k) (keys_of (deref w self) true true false) = false ->
  get_dataframe fuel funcs self (Some (k :: rest)) w = None.
Proof.
  intros Hk Hl. unfold get_dataframe. simpl. unfold resolve_column.
  unfold keys, bind, read, ret. cbn beta iota. rewrite Hl.
  now rewrite scan_suffix_hangs.
Qed.

Lemma get_dataframe_digits_hang_witness :
  get_dataframe 1000 demo_funcs 0 (Some ["2024"; "mass"]) table_world = None.
Proof.
  apply (get_dataframe_digits_hang 1000 demo_funcs 0 "2024" ["mass"] table_world);
    vm_compute; reflexivity.
Defined.



(** X19: a field whose name is an internal one, such as [uid], cannot be
    asked for by name: [keys()] does not list it, so [get_dataframe] refuses
    the name as not found, though the field is stored.  The name is no
    recipe and no child, and does not end in a digit. *)
Theorem get_dataframe_internal_field (fuel : nat) (funcs : Func -> Callable)
    (self : Loc) (k : string) (rest : list string) (w : World) :
  wf_dict (fields (deref w self)) ->
  k ∈ internals (deref w self) ->
  k ∉ PyDict.keys (fieldrecipes (deref w self)) ->
  k ∉ PyDict.keys (containers (deref w self)) ->
  isnumeric (slice_from k (-1)) = false ->
  get_dataframe (S fuel) funcs self (Some (k :: rest)) w
  = Some (Raise (mkExn ValueError ("Field '" +:+ k +:+ "' not found")), w).
Proof.
  intros Hwf Hi Hr Hc Hn.
  assert (Hl : existsb (String.eqb k) (keys_of (deref w self) true true false) = false).
  { destruct (existsb (String.eqb k) (keys_of (deref w self) true true false)) eqn:E; auto.
    apply existsb_eqb_elem in E.
    apply (proj2 (keys_of_spec (deref w self) true true false Hwf)) in E.
    destruct E as [[_ [E|E]] | [[_ E] | [_ E]]]; try tauto. discriminate. }
  unfold get_dataframe. simpl dataframe_loop. unfold resolve_column.
  unfold keys, bind, read, ret. cbn beta iota. rewrite Hl.
  simpl scan_suffix. rewrite Hn. reflexivity.
Qed.

Lemma get_dataframe_internal_field_witness :
  PyDict.getitem "uid" (fields (deref table_world 0)) = Some (PArray [2] [0; 1]%Z)
  /\ get_dataframe 1 demo_funcs 0 (Some ["uid"]) table_world
     = Some (Raise (mkExn ValueError "Field 'uid' not found"), table_world).
Proof.
  split; [reflexivity|].
  apply (get_dataframe_internal_field 0 demo_funcs 0 "uid" [] table_world).
  - vm_compute. apply NoDup_ListNoDup.
    repeat (constructor; [simpl; intuition discriminate|]). constructor.
  - vm_compute. constructor.
  - vm_compute. intros H. inversion H.
  - vm_compute. intros H. inversion H.
  - reflexivity.
Defined.





(** *** Strings *)







Lemma py_int_str n : py_int (py_str n) = Ok n.
Proof.
  unfold py_int, py_str.
  destruct (Decimal.uint_eq_dec (Nat.to_uint n) Decimal.Nil) as [E|E].
  - rewrite E. simpl.
    rewrite <- (DecimalNat.Unsigned.of_to n), E. reflexivity.
  - rewrite NilZero.usu by auto. now rewrite DecimalNat.Unsigned.of_to.
Qed.

Lemma py_str_inj a b : py_str a = py_str b -> a = b.
Proof.
  intros H. assert (E : py_int (py_str a) = py_int (py_str b)) by now rewrite H.
  rewrite !py_int_str in E. congruence.
Qed.

Lemma append_inj_l (k a b : string) : k +:+ a = k +:+ b -> a = b.
Proof. induction k as [|c k IH]; simpl; auto. intros [= H]. auto. Qed.







(** *** Columns *)

Lemma add_columns_plain k v nd dss :
  ndim v = Ok nd -> nd <= 1 -> add_columns k None v dss = Ok (PyDict.setitem k v dss).
Proof.
  intros Hn Hle. unfold add_columns. rewrite Hn. cbn [obind].
  replace (Nat.ltb 2 nd) with false by (symmetry; apply Nat.ltb_ge; lia).
  replace (Nat.ltb 1 nd) with false by (symmetry; apply Nat.ltb_ge; lia).
  reflexivity.
Qed.

Lemma plain_columns_loop fuel funcs self w :
  forall ks vs dss,
    Forall2 (fun k v =>
               k ∈ keys_of (deref w self) true true false /\
               resolve_alias (deref w self) k = k /\
               PyDict.getitem k (containers (deref w self)) = None /\
               PyDict.getitem k (fields (deref w self)) = Some v /\
               exists nd, ndim v = Ok nd /\ nd <= 1) ks vs ->
    NoDup ks ->
    (forall k, k ∈ ks -> PyDict.getitem k dss = None) ->
    dataframe_loop fuel funcs self ks dss w = Some (Ok (dss ++ zip ks vs), w).
Proof.
  induction ks as [|k ks IH]; intros vs dss Hall Hnd Hfresh.
  - inversion Hall; subst. simpl. now rewrite app_nil_r.
  - inversion Hall as [|k0 v ks0 vs' (Hl & Hal & Hc & Hf & nd & Hn & Hle) Hrest]; subst.
    apply NoDup_cons in Hnd as [Hk Hnd].
    simpl. unfold resolve_column, keys, bind, read, ret. cbn beta iota.
    rewrite (proj2 (existsb_eqb_elem k _) Hl).
    unfold __getitem__.
    rewrite (getitem_field_branch funcs self k true w v) by now rewrite Hal.
    rewrite (add_columns_plain k v nd dss Hn Hle).
    rewrite setitem_absent by (apply Hfresh; constructor).
    rewrite (IH vs' (dss ++ [(k, v)]) Hrest Hnd).
    + now rewrite <- app_assoc.
    + intros k' Hk'. rewrite getitem_snoc, (Hfresh k') by now constructor.
      destruct (String.eqb_spec k' k) as [->|]; [tauto | reflexivity].
Qed.

(** X21: a request of distinct names that [keys()] lists and that are
    stored fields of at most one dimension, none an alias or a child,
    yields the table of exactly these fields, one column each, named after
    the field and in the order of the request; nothing is derived and the
    container is unchanged. *)
Theorem get_dataframe_plain_columns (fuel : nat) (funcs : Func -> Callable) (self : Loc)
    (ks : list string) (vs : list PyVal) (w : World) :
  NoDup ks ->
  Forall2 (fun k v =>
             k ∈ keys_of (deref w self) true true false /\
             resolve_alias (deref w self) k = k /\
             PyDict.getitem k (containers (deref w self)) = None /\
             PyDict.getitem k (fields (deref w self)) = Some v /\
             exists nd, ndim v = Ok nd /\ nd <= 1) ks vs ->
  get_dataframe fuel funcs self (Some ks) w = Some (Ok (zip ks vs), w).
Proof.
  intros Hnd Hall. unfold get_dataframe.
  now rewrite (plain_columns_loop fuel funcs self w ks vs [] Hall Hnd).
Qed.

Lemma get_dataframe_plain_columns_witness :
  get_dataframe 0 demo_funcs 0 (Some ["mass"]) table_world
  = Some (Ok [("mass", PArray [2] [7; 8]%Z)], table_world).
Proof.
  apply (get_dataframe_plain_columns 0 demo_funcs 0 ["mass"] [PArray [2] [7; 8]%Z]
           table_world).
  - apply NoDup_singleton.
  - constructor; [|constructor].
    split; [|split; [|split; [|split]]]; try reflexivity.
    + apply existsb_eqb_elem. vm_compute. reflexivity.
    + exists 1. split; [reflexivity | lia].
Defined.

Lemma fold_columns_all (k : string) (v : PyVal) :
  forall (l : list nat) dss,
    NoDup l ->
    (forall i, i ∈ l -> PyDict.getitem (k +:+ py_str i) dss = None) ->
    fold_left (fun d i => PyDict.setitem (k +:+ py_str i) (column v i) d) l dss
    = dss ++ map (fun i => (k +:+ py_str i, column v i)) l.
Proof.
  induction l as [|i l IH]; intros dss Hnd Hfresh; simpl.
  - now rewrite app_nil_r.
  - apply NoDup_cons in Hnd as [Hi Hnd].
    rewrite setitem_absent by (apply Hfresh; constructor).
    rewrite IH; auto.
    + now rewrite <- app_assoc.
    + intros j Hj. rewrite getitem_snoc, (Hfresh j) by now constructor.
      destruct (String.eqb_spec (k +:+ py_str j) (k +:+ py_str i)) as [E|]; auto.
      apply append_inj_l, py_str_inj in E. subst. tauto.
Qed.


(** X22: a stored two-dimensional field that [keys()] lists, asked for by
    its name, is expanded into one column for each index of its second
    dimension, named by the field name followed by the index and holding
    that column of the array, in the order of the indices. *)
Theorem get_dataframe_expands (fuel : nat) (funcs : Func -> Callable) (self : Loc)
    (k : string) (n m : nat) (data : list Z) (w : World) :
  k ∈ keys_of (deref w self) true true false ->
  resolve_alias (deref w self) k = k ->
  PyDict.getitem k (containers (deref w self)) = None ->
  PyDict.getitem k (fields (deref w self)) = Some (PArray [n; m] data) ->
  get_dataframe fuel funcs self (Some [k]) w
  = Some (Ok (map (fun i => (k +:+ py_str i, column (PArray [n; m] data) i)) (seq 0 m)), w).
Proof.
  intros Hl Hal Hc Hf. unfold get_dataframe. simpl dataframe_loop.
  unfold resolve_column, keys, bind, read, ret. cbn beta iota.
  rewrite (proj2 (existsb_eqb_elem k _) Hl).
  unfold __getitem__.
  rewrite (getitem_field_branch funcs self k true w _) by (rewrite Hal; eauto).
  unfold add_columns. cbn [ndim obind length shape1]. cbn [Nat.ltb Nat.leb].
  rewrite (fold_columns_all k (PArray [n; m] data) (seq 0 m) []).
  - reflexivity.
  - apply NoDup_ListNoDup, seq_NoDup.
  - reflexivity.
Qed.

Lemma get_dataframe_expands_witness :
  get_dataframe 0 demo_funcs 0 (Some ["vel"]) table_world
  = Some (Ok [("vel0", PArray [2] [1; 4]%Z); ("vel1", PArray [2] [2; 5]%Z);
              ("vel2", PArray [2] [3; 6]%Z)], table_world).
Proof.
  apply (get_dataframe_expands 0 demo_funcs 0 "vel" 2 3 [1; 2; 3; 4; 5; 6]%Z table_world);
    try reflexivity.
  apply existsb_eqb_elem. vm_compute. reflexivity.
Defined.



(** ** Forced derivation *)

(** X24: a forced read through [_getitem] with [update_dict] on runs the
    generator even when a value is stored, and stores what it returned in
    place of the old value: the next plain read returns the new value and
    calls nothing.  The generator left the key neither an alias nor a
    child name. *)
Theorem forced_read_refreshes (funcs : Func -> Callable) (w w1 : World) (self : Loc)
    (key : string) (rc : FieldRecipe) (f : Func) (v : PyVal) :
  let c := deref w self in
  let k := resolve_alias c key in
  PyDict.getitem k (containers c) = None ->
  PyDict.getitem k (fieldrecipes c) = Some rc -> func rc = Some f ->
  _getitem funcs self key true true w = (Ok v, w1) ->
  allocated w1 self ->
  resolve_alias (deref w1 self) key = k ->
  PyDict.getitem k (containers (deref w1 self)) = None ->
  (exists w2,
      call (funcs f) self (recipe_kwargs (funcs f) (fieldrecipes_kwargs c)) (logged self k w)
      = (Ok v, w2) /\ w1 = store_field self k v w2) /\
  PyDict.getitem k (fields (deref w1 self)) = Some v /\
  __getitem__ funcs self key w1 = (Ok v, w1).
Proof.
  intros c k Hc Hr Hfunc Hget Ha1 Hk1 Hc1.
  rewrite (getitem_recipe_branch funcs self key true true w rc f Hc (or_intror eq_refl)
             Hr Hfunc) in Hget.
  fold c k in Hget.
  destruct (call (funcs f) self _ _) as [[field|e] w2] eqn:Hcall; [|discriminate].
  injection Hget as -> <-.
  assert (Hv : PyDict.getitem k (fields (deref (store_field self k v w2) self)) = Some v).
  { rewrite store_field_deref by (now apply store_field_allocated in Ha1).
    simpl. apply getitem_setitem_eq. }
  split; [exists w2; auto|]. split; [exact Hv|].
  unfold __getitem__. apply getitem_field_branch; now rewrite Hk1.
Qed.

Lemma forced_read_refreshes_witness :
  PyDict.getitem "double"
    (fields (deref (snd (_getitem demo_funcs 0 "double" true true
                           (snd (__setitem__ 0 "double" (PInt 0) demo_world)))) 0))
  = Some (PArray [3] [2; 4; 6]%Z).
Proof.
  apply (forced_read_refreshes demo_funcs
           (snd (__setitem__ 0 "double" (PInt 0) demo_world))
           (snd (_getitem demo_funcs 0 "double" true true
                   (snd (__setitem__ 0 "double" (PInt 0) demo_world))))
           0 "double" (mkFieldRecipe DERIVED "double" EmptyString None (Some 0) None) 0
           (PArray [3] [2; 4; 6]%Z)); try reflexivity.
  vm_compute. lia.
Defined.

(** ** The merge of configurations *)

Example merge_dicts_examples :
  merge_dicts_recursively conf_a conf_b None
  = ([("units", CDict [("length", CLeaf (SStr "kpc")); ("h", CLeaf (SInt 1));
                       ("mass", CLeaf (SStr "Msun"))]);
      ("cache", CLeaf (SBool true)); ("nthreads", CLeaf (SInt 8))], None)
  /\ merge_dicts_recursively conf_a conf_c None
     = (conf_a, Some (mkExn (UserError "Exception" false) "Conflict at units.length")).
Proof. split; reflexivity. Qed.

Lemma merge_conf_nil acc path : merge_conf acc (CDict []) path = (acc, None).
Proof. reflexivity. Qed.

Lemma merge_conf_cons acc key vb rest path :
  merge_conf acc (CDict ((key, vb) :: rest)) path =
    match PyDict.getitem key acc with
    | None => merge_conf (PyDict.setitem key vb acc) (CDict rest) path
    | Some va =>
        match va, vb with
        | CDict a', CDict _ =>
            match merge_conf a' vb (path ++ [key]) with
            | (a'', None) =>
                merge_conf (PyDict.setitem key (CDict a'') acc) (CDict rest) path
            | (a'', Some e) => (PyDict.setitem key (CDict a'') acc, Some e)
            end
        | CLeaf x, CLeaf y =>
            if scalar_eq x y then merge_conf acc (CDict rest) path
            else (acc, Some (conflict_at path key))
        | _, _ => (acc, Some (conflict_at path key))
        end
    end.
Proof.
  simpl. destruct (PyDict.getitem key acc) as [[x|a']|]; auto; destruct vb; auto.
Qed.

Lemma Conf_nested_ind (P : Conf -> Prop) :
  (forall v, P (CLeaf v)) ->
  (forall d, Forall (fun kv => P (snd kv)) d -> P (CDict d)) ->
  forall c, P c.
Proof.
  intros Hl Hd. fix IH 1. intros [v|d]; [apply Hl|].
  apply Hd. induction d as [|[k v] d IHd]; constructor; [apply IH | apply IHd].
Qed.

Lemma merge_conf_fresh entries :
  forall acc path,
    NoDup (PyDict.keys entries) ->
    (forall k, k ∈ PyDict.keys entries -> PyDict.getitem k acc = None) ->
    merge_conf acc (CDict entries) path = (acc ++ entries, None).
Proof.
  induction entries as [|[key vb] rest IH]; intros acc path Hnd Hfresh.
  - rewrite merge_conf_nil. now rewrite app_nil_r.
  - simpl in Hnd. apply NoDup_cons in Hnd as [Hk Hnd].
    rewrite merge_conf_cons. rewrite (Hfresh key) by (simpl; constructor).
    rewrite setitem_absent by (apply Hfresh; simpl; constructor).
    rewrite IH; auto.
    + now rewrite <- app_assoc.
    + intros k Hin. rewrite getitem_snoc, (Hfresh k) by (simpl; now constructor).
      destruct (String.eqb_spec k key) as [->|]; [tauto | reflexivity].
Qed.

(** X25: when no key of [dict_b] is a key of [dict_a], the merge raises
    nothing and the result is [dict_a] followed by the entries of
    [dict_b], in their order and as they are; so merging into an empty
    dictionary gives [dict_b] back. *)
Theorem merge_dicts_disjoint (dict_a dict_b : dict Conf) (path : option (list string)) :
  wf_dict dict_b ->
  (forall k, k ∈ PyDict.keys dict_b -> k ∉ PyDict.keys dict_a) ->
  merge_dicts_recursively dict_a dict_b path = (dict_a ++ dict_b, None).
Proof.
  intros Hwf Hd. unfold merge_dicts_recursively. apply merge_conf_fresh; auto.
  intros k Hk. apply getitem_None_keys. now apply Hd.
Qed.

Lemma merge_dicts_disjoint_witness :
  merge_dicts_recursively [] conf_a None = (conf_a, None).
Proof.
  apply (merge_dicts_disjoint [] conf_a None).
  - vm_compute. apply NoDup_ListNoDup.
    repeat (constructor; [simpl; intuition discriminate|]). constructor.
  - intros k _ H. inversion H.
Defined.






Lemma conf_get_setitem_new key vb acc p s :
  PyDict.getitem key acc = None ->
  conf_get p (CDict acc) = Some (CLeaf s) ->
  conf_get p (CDict (PyDict.setitem key vb acc)) = Some (CLeaf s).
Proof.
  intros Hg H. destruct p as [|k p']; simpl in *; [discriminate|].
  destruct (String.eqb_spec key k) as [->|Hne].
  - rewrite Hg in H. discriminate.
  - now rewrite getitem_setitem_ne.
Qed.

Lemma conf_get_setitem_dict key a' a'' acc p s :
  PyDict.getitem key acc = Some (CDict a') ->
  (forall p' s', conf_get p' (CDict a') = Some (CLeaf s') ->
                 conf_get p' (CDict a'') = Some (CLeaf s')) ->
  conf_get p (CDict acc) = Some (CLeaf s) ->
  conf_get p (CDict (PyDict.setitem key (CDict a'') acc)) = Some (CLeaf s).
Proof.
  intros Hg Hsub H. destruct p as [|k p']; [discriminate|].
  cbn [conf_get] in *.
  destruct (String.eqb_spec key k) as [->|Hne].
  - rewrite getitem_setitem_eq. rewrite Hg in H. now apply Hsub.
  - now rewrite getitem_setitem_ne.
Qed.

Lemma merge_conf_keeps_leaf (b : Conf) :
  forall d, b = CDict d ->
  forall acc path p s,
    conf_get p (CDict acc) = Some (CLeaf s) ->
    conf_get p (CDict (fst (merge_conf acc (CDict d) path))) = Some (CLeaf s).
Proof.
  induction b as [v|d0 IHd] using Conf_nested_ind; intros d [= <-].
  induction d0 as [|[key vb] rest IH]; intros acc path p s H.
  - exact H.
  - apply Forall_cons in IHd as [Hvb IHd]. specialize (IH IHd). cbn [snd] in Hvb.
    rewrite merge_conf_cons.
    destruct (PyDict.getitem key acc) as [[x|a']|] eqn:Hg.
    + destruct vb as [y|b']; [|exact H].
      destruct (scalar_eq x y); [now apply IH | exact H].
    + destruct vb as [y|b']; [exact H|].
      pose proof (fun p' s' => Hvb b' eq_refl a' (path ++ [key]) p' s') as Hsub.
      destruct (merge_conf a' (CDict b') (path ++ [key])) as [a'' [e|]];
        cbn [fst] in Hsub.
      * cbn [fst]. apply conf_get_setitem_dict with a'; assumption.
      * apply IH. apply conf_get_setitem_dict with a'; assumption.
    + apply IH. now apply conf_get_setitem_new.
Qed.

(** X27: the merge never replaces or removes a scalar of [dict_a]: a
    scalar found in [dict_a] at some path of keys is found at that path,
    unchanged, in [dict_a] after the call, whether the call returned or
    raised. *)
Theorem merge_dicts_keeps_scalars (dict_a dict_b : dict Conf) (path : option (list string))
    (p : list string) (s : Scalar) :
  conf_get p (CDict dict_a) = Some (CLeaf s) ->
  conf_get p (CDict (fst (merge_dicts_recursively dict_a dict_b path))) = Some (CLeaf s).
Proof.
  intros H. unfold merge_dicts_recursively.
  now apply (merge_conf_keeps_leaf (CDict dict_b) dict_b eq_refl).
Qed.

Lemma merge_dicts_keeps_scalars_witness :
  conf_get ["units"; "length"]
    (CDict (fst (merge_dicts_recursively conf_a conf_c None))) = Some (CLeaf (SStr "kpc")).
Proof.
  apply (merge_dicts_keeps_scalars conf_a conf_c None ["units"; "length"] (SStr "kpc")).
  reflexivity.
Defined.

Lemma merge_conf_conflict entries :
  forall acc path k va vb,
    PyDict.getitem k acc = Some va ->
    PyDict.getitem k entries = Some vb ->
    (forall a' b', ~ (va = CDict a' /\ vb = CDict b')) ->
    (forall x y, va = CLeaf x -> vb = CLeaf y -> scalar_eq x y = false) ->
    exists e, snd (merge_conf acc (CDict entries) path) = Some e.
Proof.
  induction entries as [|[key vb'] rest IH]; intros acc path k va vb Ha Hb Hnd Hne;
    simpl in Hb; [discriminate|].
  rewrite merge_conf_cons.
  destruct (String.eqb_spec k key) as [->|Hk].
  - injection Hb as ->. rewrite Ha.
    destruct va as [x|a'], vb as [y|b']; simpl; eauto.
    + rewrite (Hne x y eq_refl eq_refl). simpl. eauto.
    + exfalso. apply (Hnd a' b'). auto.
  - destruct (PyDict.getitem key acc) as [[x|a']|] eqn:Hg.
    + destruct vb' as [y|b']; [|simpl; eauto].
      destruct (scalar_eq x y); [|simpl; eauto]. now apply IH with k va vb.
    + destruct vb' as [y|b']; [simpl; eauto|].
      destruct (merge_conf a' (CDict b') (path ++ [key])) as [a'' [e|]];
        [simpl; eauto|].
      apply IH with k va vb; auto. rewrite getitem_setitem_ne; auto.
    + apply IH with k va vb; auto. rewrite getitem_setitem_ne; auto.
Qed.

(** X28: when a key of [dict_b] is also a key of [dict_a] and the two
    values are neither both dictionaries nor equal scalars, the call
    raises. *)
Theorem merge_dicts_conflict_raises (dict_a dict_b : dict Conf)
    (path : option (list string)) (k : string) (va vb : Conf) :
  PyDict.getitem k dict_a = Some va ->
  PyDict.getitem k dict_b = Some vb ->
  (forall a' b', ~ (va = CDict a' /\ vb = CDict b')) ->
  (forall x y, va = CLeaf x -> vb = CLeaf y -> scalar_eq x y = false) ->
  exists e, snd (merge_dicts_recursively dict_a dict_b path) = Some e.
Proof.
  intros Ha Hb Hnd Hne. unfold merge_dicts_recursively.
  now apply merge_conf_conflict with k va vb.
Qed.

Lemma merge_dicts_conflict_raises_witness :
  exists e, snd (merge_dicts_recursively conf_a [("cache", CLeaf (SInt 0))] None) = Some e.
Proof.
  apply (merge_dicts_conflict_raises conf_a [("cache", CLeaf (SInt 0))] None
           "cache" (CLeaf (SBool true)) (CLeaf (SInt 0))).
  - reflexivity.
  - reflexivity.
  - intros a' b' [H _]. discriminate.
  - intros x y [= <-] [= <-]. reflexivity.
Defined.







Lemma conf_get_head q key (vb : Conf) (rest : dict Conf) :
  key ∉ PyDict.keys rest ->
  (exists v, conf_get q (CDict rest) = Some v) ->
  q = [] \/ exists k0 tl, q = k0 :: tl /\ k0 <> key.
Proof.
  intros Hfresh [v Hv]. destruct q as [|k0 tl]; [now left|right].
  exists k0, tl. split; [reflexivity|]. intros ->.
  cbn [conf_get] in Hv.
  destruct (PyDict.getitem key rest) eqn:Hg; [|discriminate].
  apply getitem_Some_keys in Hg. contradiction.
Qed.

Lemma conf_get_skip q key (vb : Conf) (rest : dict Conf) :
  key ∉ PyDict.keys rest ->
  (exists v, conf_get q (CDict rest) = Some v) ->
  exists v, conf_get q (CDict ((key, vb) :: rest)) = Some v.
Proof.
  intros Hfresh Hv.
  destruct (conf_get_head q key vb rest Hfresh Hv) as [->|[k0 [tl [-> Hne]]]];
    [simpl; eauto|].
  destruct Hv as [v Hv]. exists v. cbn [conf_get PyDict.getitem] in *.
  apply String.eqb_neq in Hne. now rewrite Hne.
Qed.

Lemma conf_get_unset q key (vb v' : Conf) (rest acc : dict Conf) :
  key ∉ PyDict.keys rest ->
  (exists v, conf_get q (CDict rest) = Some v) ->
  (exists v, conf_get q (CDict (PyDict.setitem key v' acc)) = Some v) ->
  exists v, conf_get q (CDict acc) = Some v.
Proof.
  intros Hfresh Hv Hs.
  destruct (conf_get_head q key vb rest Hfresh Hv) as [->|[k0 [tl [-> Hne]]]];
    [simpl; eauto|].
  destruct Hs as [v Hs]. exists v. cbn [conf_get] in *.
  rewrite getitem_setitem_ne in Hs; auto.
Qed.

Lemma merge_conf_error_path (b : Conf) :
  forall d, b = CDict d -> conf_wf b ->
  forall acc path e,
    snd (merge_conf acc (CDict d) path) = Some e ->
    exists ks k,
      e = conflict_at (path ++ ks) k /\
      (exists v, conf_get (ks ++ [k]) (CDict d) = Some v) /\
      (exists v, conf_get (ks ++ [k]) (CDict acc) = Some v).
Proof.
  induction b as [v|d0 IHd] using Conf_nested_ind; intros d [= <-].
  induction d0 as [|[key vb] rest IH]; intros Hwf acc path e He.
  - discriminate.
  - apply Forall_cons in IHd as [Hvb IHd]. specialize (IH IHd). cbn [snd] in Hvb.
    destruct Hwf as [Hnd [Hwvb Hall]].
    simpl in Hnd. apply NoDup_cons in Hnd as [Hfresh Hnd].
    assert (Hwr : conf_wf (CDict rest)) by (split; assumption).
    specialize (IH Hwr).
    assert (Hhead : forall va, PyDict.getitem key acc = Some va ->
              exists ks k,
                conflict_at path key = conflict_at (path ++ ks) k /\
                (exists v, conf_get (ks ++ [k]) (CDict ((key, vb) :: rest)) = Some v) /\
                (exists v, conf_get (ks ++ [k]) (CDict acc) = Some v)).
    { intros va Hva. exists [], key. rewrite app_nil_r. split; [reflexivity|].
      cbn [app conf_get PyDict.getitem]. rewrite String.eqb_refl, Hva. eauto. }
    assert (Hrest : forall acc',
              (acc' = acc \/ exists v', acc' = PyDict.setitem key v' acc) ->
              snd (merge_conf acc' (CDict rest) path) = Some e ->
              exists ks k,
                e = conflict_at (path ++ ks) k /\
                (exists v, conf_get (ks ++ [k]) (CDict ((key, vb) :: rest)) = Some v) /\
                (exists v, conf_get (ks ++ [k]) (CDict acc) = Some v)).
    { intros acc' Hacc' He'.
      destruct (IH acc' path e He') as [ks [k [-> [Hb Ha]]]].
      exists ks, k. split; [reflexivity|]. split.
      - now apply conf_get_skip.
      - destruct Hacc' as [->|[v' ->]]; [exact Ha|].
        now apply (conf_get_unset (ks ++ [k]) key vb v' rest acc). }
    rewrite merge_conf_cons in He.
    destruct (PyDict.getitem key acc) as [[x|a']|] eqn:Hg.
    + destruct vb as [y|b'].
      * destruct (scalar_eq x y).
        -- apply (Hrest acc); auto.
        -- injection He as <-. now apply (Hhead (CLeaf x)).
      * injection He as <-. now apply (Hhead (CLeaf x)).
    + destruct vb as [y|b'].
      * injection He as <-. now apply (Hhead (CDict a')).
      * pose proof (Hvb b' eq_refl Hwvb a' (path ++ [key])) as Hsub.
        destruct (merge_conf a' (CDict b') (path ++ [key])) as [a'' [e'|]];
          cbn [snd] in Hsub.
        -- injection He as <-.
           destruct (Hsub e' eq_refl) as [ks [k [-> [[v1 Hb] [v2 Ha]]]]].
           exists (key :: ks), k. rewrite <- app_assoc. split; [reflexivity|].
           cbn [app conf_get PyDict.getitem]. rewrite String.eqb_refl, Hg. eauto.
        -- apply (Hrest (PyDict.setitem key (CDict a'') acc)); eauto.
    + apply (Hrest (PyDict.setitem key vb acc)); eauto.
Qed.

(** X30: the only exception the merge raises is the conflict one, and
    the dotted path of its message is the given path followed by keys
    that lead to a value in [dict_b] and in [dict_a]. *)
Theorem merge_dicts_error_names_common_path (dict_a dict_b : dict Conf)
    (path : option (list string)) (e : Exn) :
  conf_wf (CDict dict_b) ->
  snd (merge_dicts_recursively dict_a dict_b path) = Some e ->
  exists ks k,
    e = conflict_at (default [] path ++ ks) k /\
    (exists v, conf_get (ks ++ [k]) (CDict dict_b) = Some v) /\
    (exists v, conf_get (ks ++ [k]) (CDict dict_a) = Some v).
Proof.
  intros Hwf He. unfold merge_dicts_recursively in He.
  exact (merge_conf_error_path (CDict dict_b) dict_b eq_refl Hwf dict_a _ e He).
Qed.

Lemma merge_dicts_error_names_common_path_witness :
  exists ks k,
    mkExn (UserError "Exception" false) "Conflict at units.length"
      = conflict_at (default [] None ++ ks) k /\
    (exists v, conf_get (ks ++ [k]) (CDict conf_c) = Some v) /\
    (exists v, conf_get (ks ++ [k]) (CDict conf_a) = Some v).
Proof.
  apply (merge_dicts_error_names_common_path conf_a conf_c None).
  - vm_compute. repeat split;
      apply NoDup_ListNoDup; repeat (constructor; [simpl; intuition discriminate|]);
      constructor.
  - reflexivity.
Defined.
